(** * LinkVault bot: shallow embedding of the invite-link lifecycle

    Sources: [config.py], [database.py] (MongoDB operations through
    motor), [handlers.py] (pyrogram handlers) and [main.py] (cleanup task).

    Conventions of the embedding:
    - a [datetime] is a [Z] count of microseconds ([datetime.utcnow()] has
      microsecond resolution); [timedelta(minutes=m)] is [m * 60 * 10^6];
    - the MongoDB collections [channels] and [links] are lists of typed
      records in insertion order; the [users] collection holds untyped
      documents ([gmap string value]) because the claims about it depend on
      the MongoDB update operators used by [add_user];
    - a handler runs in a small state/exception monad [M] over a [world]
      that holds the store, a trace of the calls made to the chat client
      and of the replies, the clock, and the answers of the chat client;
    - a Python exception is a value of [exn]; [try ... except] is
      [try_except]. *)

From Stdlib Require Import ZArith String Ascii DecimalZ.
From stdpp Require Import base list gmap strings.

Open Scope Z_scope.

(** ** config.py *)

Record config := mkConfig {
  OWNER_ID : Z;
  ADMIN_IDS : list Z;
  LINK_EXPIRY_MINUTES : Z;   (* env LINK_EXPIRY_MINUTES, default 5 *)
  BOT_USERNAME : string      (* set by main.start_bot from get_me() *)
}.

(** The class attributes of [Config] that hold integers, by name.
    [TEMP_LINK_REVOKE_SECONDS], read by [handlers.py], is not one of them. *)
Definition Config_int_attr (cfg : config) (name : string) : option Z :=
  if String.eqb name "OWNER_ID" then Some (OWNER_ID cfg)
  else if String.eqb name "LINK_EXPIRY_MINUTES" then Some (LINK_EXPIRY_MINUTES cfg)
  else if String.eqb name "MAX_CHANNELS_PER_PAGE" then Some 8
  else None.

Definition is_admin (cfg : config) (user_id : Z) : bool :=
  Z.eqb user_id (OWNER_ID cfg) || existsb (Z.eqb user_id) (ADMIN_IDS cfg).

(** [timedelta(minutes=Config.LINK_EXPIRY_MINUTES)] in microseconds. *)
Definition link_ttl (cfg : config) : Z := LINK_EXPIRY_MINUTES cfg * 60 * 1000000.

(** ** database.py: documents *)

Record channel := mkChannel {
  ch_channel_id : Z;
  ch_channel_name : string;
  ch_invite_link : option string;
  ch_added_at : Z;
  ch_total_joins : Z;
  ch_is_active : bool;
  ch_auto_approve : bool
}.

Record link := mkLink {
  lk_channel_id : Z;
  lk_invite_link : string;
  lk_link_type : string;
  lk_created_at : Z;
  lk_expires_at : Z;
  lk_uses : Z;
  lk_is_active : bool
}.

(** BSON values stored in a user document. *)
Inductive value :=
  | VInt (n : Z)
  | VStr (s : string)
  | VBool (b : bool)
  | VNone
  | VDate (t : Z).

Record store := mkStore {
  st_channels : list channel;
  st_users : list (gmap string value);
  st_links : list link
}.

(** The attributes of an instance of class [Database] (database.py):
    its collections and its methods. *)
Definition Database_attrs : list string :=
  ["client"; "db"; "channels"; "users"; "links"; "settings";
   "initialize"; "add_channel"; "remove_channel"; "get_channel";
   "get_all_channels"; "update_channel_link"; "increment_channel_joins";
   "toggle_auto_approve"; "add_user"; "get_user"; "update_last_active";
   "get_total_users"; "get_active_users"; "ban_user"; "save_link";
   "get_active_link"; "increment_link_uses"; "cleanup_expired_links";
   "get_stats"]%string.

(** ** The world a handler runs in *)

Inductive invite_opts :=
  | MemberLimit1          (* create_chat_invite_link(..., member_limit=1) *)
  | CreatesJoinRequest.   (* create_chat_invite_link(..., creates_join_request=True) *)

Inductive exn :=
  | AttributeError (obj attr : string)
  | PyError (what : string).

(** The texts the handlers send, by the message they render. *)
Inductive msg :=
  | MsgPleaseWait
  | MsgChannelExists
  | MsgChannelAdded (normal_link request_link : string)
  | MsgFailedAddChannel (e : exn)
  | MsgInvalidLink
  | MsgChannelNotFound
  | MsgChannelNotFoundAlert
  | MsgGenerating
  | MsgLinkGenerated (link_type_text invite : string) (secs : Z)
  | MsgFailedGenerate
  | MsgErrorOccurred (e : exn)
  | MsgGeneratingLinkAnswer
  | MsgChannelInfo (c : channel) (invite : string).

Inductive event :=
  | EvGetChat (channel_id : Z)
  | EvExportInvite (channel_id : Z)
  | EvCreateInvite (channel_id : Z) (opts : invite_opts) (name_user_id : Z)
  | EvDecode (arg : string)
  | EvReply (m : msg)
  | EvEdit (m : msg)
  | EvAnswer (m : msg)
  | EvScheduleRevoke (channel_id : Z) (invite : string) (delay : Z).

Record world := mkWorld {
  w_store : store;
  w_trace : list event;
  w_tick : nat;                                  (* clock reads so far *)
  w_time : nat -> Z;                             (* the i-th utcnow() *)
  w_get_chat : Z -> option string;               (* title, or raises *)
  w_export_invite : Z -> option string;          (* link, or raises *)
  w_create_invite : Z -> invite_opts -> option string  (* link, or raises *)
}.

Definition set_store (s : store) (w : world) : world :=
  mkWorld s (w_trace w) (w_tick w) (w_time w) (w_get_chat w)
    (w_export_invite w) (w_create_invite w).

Definition add_event (e : event) (w : world) : world :=
  mkWorld (w_store w) (w_trace w ++ [e]) (w_tick w) (w_time w) (w_get_chat w)
    (w_export_invite w) (w_create_invite w).

Definition tick (w : world) : world :=
  mkWorld (w_store w) (w_trace w) (S (w_tick w)) (w_time w) (w_get_chat w)
    (w_export_invite w) (w_create_invite w).

(** ** The handler monad *)

Definition M (A : Type) : Type := world -> (exn + A) * world.

Definition ret {A} (a : A) : M A := fun w => (inr a, w).

Definition bind {A B} (m : M A) (k : A -> M B) : M B :=
  fun w => match m w with
           | (inl e, w') => (inl e, w')
           | (inr a, w') => k a w'
           end.

Notation "'do' x <- m ; k" := (bind m (fun x => k))
  (at level 60, x name, m at next level, right associativity).

Definition raise {A} (e : exn) : M A := fun w => (inl e, w).

Definition try_except {A} (m : M A) (h : exn -> M A) : M A :=
  fun w => match m w with
           | (inl e, w') => h e w'
           | (inr a, w') => (inr a, w')
           end.

Definition get_store : M store := fun w => (inr (w_store w), w).
Definition put_store (s : store) : M unit := fun w => (inr tt, set_store s w).
Definition emit (e : event) : M unit := fun w => (inr tt, add_event e w).

(** [datetime.utcnow()] *)
Definition utcnow : M Z := fun w => (inr (w_time w (w_tick w)), tick w).

(** [getattr(Config, name)] for an integer setting. *)
Definition config_getattr (cfg : config) (name : string) : M Z :=
  match Config_int_attr cfg name with
  | Some v => ret v
  | None => raise (AttributeError "Config" name)
  end.

(** ** database.py: collection primitives (MongoDB semantics) *)

Definition channel_has_id (channel_id : Z) (c : channel) : bool :=
  Z.eqb (ch_channel_id c) channel_id.

(** [find_one]: the first matching document. *)
Definition find_channel (channel_id : Z) (l : list channel) : option channel :=
  List.find (channel_has_id channel_id) l.

(** [delete_one]: remove the first matching document; also return
    [deleted_count]. *)
Fixpoint delete_one_channel (channel_id : Z) (l : list channel) : list channel * Z :=
  match l with
  | [] => ([], 0)
  | c :: l' =>
      if channel_has_id channel_id c then (l', 1)
      else let '(r, n) := delete_one_channel channel_id l' in (c :: r, n)
  end.

(** [update_one]: apply [f] to the first matching document. *)
Fixpoint update_one_channel (channel_id : Z) (f : channel -> channel)
    (l : list channel) : list channel :=
  match l with
  | [] => []
  | c :: l' =>
      if channel_has_id channel_id c then f c :: l'
      else c :: update_one_channel channel_id f l'
  end.

Definition inc_total_joins (c : channel) : channel :=
  mkChannel (ch_channel_id c) (ch_channel_name c) (ch_invite_link c)
    (ch_added_at c) (ch_total_joins c + 1) (ch_is_active c) (ch_auto_approve c).

(** A [datetime] as MongoDB stores it, and as a query bound is sent: a
    BSON date holds whole milliseconds, and pymongo encodes
    [timegm(dt.timetuple()) * 1000 + dt.microsecond // 1000], dropping the
    sub-millisecond digits. Times are in microseconds since the epoch. *)
Definition bson_date (t : Z) : Z := t / 1000 * 1000.

(** [links.delete_many({"channel_id": channel_id})] *)
Definition delete_links_of (channel_id : Z) (l : list link) : list link :=
  List.filter (fun k => negb (Z.eqb (lk_channel_id k) channel_id)) l.

(** [links.delete_many({"expires_at": {"$lt": now}})] *)
Definition delete_links_expired_before (now : Z) (l : list link) : list link :=
  List.filter (fun k => negb (Z.ltb (lk_expires_at k) now)) l.

(** ** database.py: channel and link operations *)

(** [Database.add_channel]; the unique index on [channel_id] makes
    [insert_one] raise [DuplicateKeyError] on an existing id. *)
Definition db_add_channel (channel_id : Z) (channel_name : string)
    (invite_link : option string) : M bool :=
  try_except
    (do t <- utcnow;
     do s <- get_store;
     if existsb (channel_has_id channel_id) (st_channels s)
     then raise (PyError "DuplicateKeyError")
     else
       do _ <- put_store (mkStore
                (st_channels s ++ [mkChannel channel_id channel_name invite_link
                                     (bson_date t) 0 true false])
                (st_users s) (st_links s));
       ret true)
    (fun _ => ret false).

(** [Database.remove_channel] *)
Definition db_remove_channel (channel_id : Z) : M bool :=
  try_except
    (do s <- get_store;
     let '(chs, deleted_count) := delete_one_channel channel_id (st_channels s) in
     do _ <- put_store (mkStore chs (st_users s) (st_links s));
     if Z.ltb 0 deleted_count then
       do s' <- get_store;
       do _ <- put_store (mkStore (st_channels s') (st_users s')
                           (delete_links_of channel_id (st_links s')));
       ret true
     else ret false)
    (fun _ => ret false).

(** [Database.get_channel] *)
Definition db_get_channel (channel_id : Z) : M (option channel) :=
  do s <- get_store; ret (find_channel channel_id (st_channels s)).

(** [Database.increment_channel_joins]: [$inc total_joins 1]. *)
Definition db_increment_channel_joins (channel_id : Z) : M unit :=
  do s <- get_store;
  put_store (mkStore (update_one_channel channel_id inc_total_joins (st_channels s))
               (st_users s) (st_links s)).

(** [Database.save_link]: the dict literal calls [datetime.utcnow()] once
    for [created_at] and once more for [expires_at]; both are stored as
    BSON dates. *)
Definition db_save_link (cfg : config) (channel_id : Z) (invite_link : string)
    (link_type : string) : M bool :=
  try_except
    (do created_at <- utcnow;
     do now2 <- utcnow;
     let link_data := mkLink channel_id invite_link link_type (bson_date created_at)
                        (bson_date (now2 + link_ttl cfg)) 0 true in
     do s <- get_store;
     do _ <- put_store (mkStore (st_channels s) (st_users s) (st_links s ++ [link_data]));
     ret true)
    (fun _ => ret false).

(** [Database.cleanup_expired_links]; the bound of [{"$lt": now}] is sent
    as a BSON date. *)
Definition db_cleanup_expired_links : M unit :=
  try_except
    (do now <- utcnow;
     do s <- get_store;
     put_store (mkStore (st_channels s) (st_users s)
                  (delete_links_expired_before (bson_date now) (st_links s))))
    (fun _ => ret tt).

(** ** database.py: user operations (MongoDB update operators) *)

(** An update document [{"$set": .., "$setOnInsert": .., "$inc": ..}]. *)
Record mongo_update := mkUpdate {
  up_set : list (string * value);
  up_set_on_insert : list (string * value);
  up_inc : list (string * Z)
}.

(** The field paths an update touches; MongoDB rejects an update in which
    one path appears twice ("Updating the path 'x' would create a conflict
    at 'x'", error code 40), before looking at any document. *)
Definition update_paths (u : mongo_update) : list string :=
  map fst (up_set u) ++ map fst (up_set_on_insert u) ++ map fst (up_inc u).

Definition apply_set (kvs : list (string * value)) (d : gmap string value)
    : gmap string value :=
  foldl (fun acc kv => <[kv.1 := kv.2]> acc) d kvs.

(** [$inc]: a missing field is created; a non-numeric one is an error. *)
Fixpoint apply_inc (kvs : list (string * Z)) (d : gmap string value)
    : option (gmap string value) :=
  match kvs with
  | [] => Some d
  | (k, n) :: r =>
      match d !! k with
      | None => apply_inc r (<[k := VInt n]> d)
      | Some (VInt m) => apply_inc r (<[k := VInt (m + n)]> d)
      | Some _ => None
      end
  end.

Definition user_has_id (user_id : Z) (d : gmap string value) : bool :=
  match d !! "user_id"%string with
  | Some (VInt n) => Z.eqb n user_id
  | _ => false
  end.

(** Apply [f] to the first document with this [user_id]; the flag says
    whether one matched; [None] when [f] fails on it. *)
Fixpoint update_first_user (user_id : Z)
    (f : gmap string value -> option (gmap string value))
    (l : list (gmap string value)) : option (bool * list (gmap string value)) :=
  match l with
  | [] => Some (false, [])
  | d :: l' =>
      if user_has_id user_id d then
        match f d with Some d' => Some (true, d' :: l') | None => None end
      else
        match update_first_user user_id f l' with
        | Some (b, r) => Some (b, d :: r)
        | None => None
        end
  end.

(** [users.update_one({"user_id": user_id}, u, upsert=upsert)] *)
Definition users_update_one (user_id : Z) (u : mongo_update) (upsert : bool) : M unit :=
  if negb (bool_decide (NoDup (update_paths u)))
  then raise (PyError "WriteError: conflicting update paths")
  else
    do s <- get_store;
    match update_first_user user_id
            (fun d => apply_inc (up_inc u) (apply_set (up_set u) d)) (st_users s) with
    | None => raise (PyError "WriteError: $inc on a non-numeric field")
    | Some (true, us) => put_store (mkStore (st_channels s) us (st_links s))
    | Some (false, _) =>
        if upsert then
          match apply_inc (up_inc u)
                  (apply_set (up_set_on_insert u)
                     (apply_set (up_set u) {[ "user_id"%string := VInt user_id ]})) with
          | None => raise (PyError "WriteError: $inc on a non-numeric field")
          | Some d => put_store (mkStore (st_channels s) (st_users s ++ [d]) (st_links s))
          end
        else ret tt
    end.

Definition opt_str (o : option string) : value :=
  match o with Some s => VStr s | None => VNone end.

(** [Database.add_user] *)
Definition db_add_user (user_id : Z) (username first_name : option string) : M bool :=
  try_except
    (do t_joined <- utcnow;
     do t_active <- utcnow;
     let user_data :=
       [("user_id", VInt user_id); ("username", opt_str username);
        ("first_name", opt_str first_name); ("joined_at", VDate (bson_date t_joined));
        ("last_active", VDate (bson_date t_active)); ("total_requests", VInt 0);
        ("is_banned", VBool false)]%string in
     do t_insert <- utcnow;
     do _ <- users_update_one user_id
               (mkUpdate user_data [("joined_at"%string, VDate (bson_date t_insert))] [])
               true;
     ret true)
    (fun _ => ret false).

(** [Database.update_last_active] *)
Definition db_update_last_active (user_id : Z) : M unit :=
  do t <- utcnow;
  users_update_one user_id
    (mkUpdate [("last_active"%string, VDate (bson_date t))] []
       [("total_requests"%string, 1)]) false.

(** The user bookkeeping at the head of [start_command] (handlers.py):
    [db.add_user(...)] then [db.update_last_active(user.id)]. *)
Definition start_command_users (user_id : Z) (username first_name : option string)
    : M unit :=
  do _ <- db_add_user user_id username first_name;
  db_update_last_active user_id.

(** ** The chat client (pyrogram) *)

(** [client.get_chat(channel_id)]: the title, or an RPC error. *)
Definition client_get_chat (channel_id : Z) : M string :=
  fun w => let w' := add_event (EvGetChat channel_id) w in
           match w_get_chat w channel_id with
           | Some title => (inr title, w')
           | None => (inl (PyError "RPCError"), w')
           end.

(** [client.export_chat_invite_link(channel_id)] *)
Definition client_export_invite (channel_id : Z) : M string :=
  fun w => let w' := add_event (EvExportInvite channel_id) w in
           match w_export_invite w channel_id with
           | Some l => (inr l, w')
           | None => (inl (PyError "RPCError"), w')
           end.

(** [client.create_chat_invite_link(channel_id, <opts>, name=f"User_{uid}")]
    followed by [.invite_link]. *)
Definition client_create_invite (channel_id : Z) (opts : invite_opts) (uid : Z)
    : M string :=
  fun w => let w' := add_event (EvCreateInvite channel_id opts uid) w in
           match w_create_invite w channel_id opts with
           | Some l => (inr l, w')
           | None => (inl (PyError "RPCError"), w')
           end.

(** ** The identifier codec as the handlers reach it

    [handlers.py] calls [db.encode_channel_id(channel_id)] and
    [db.decode_channel_id(payload)] on the [Database] instance [db].
    [lookup_method name impl] is that attribute lookup: the method when
    the class defines one, [AttributeError] otherwise. *)
Definition lookup_method {F : Type} (name : string) (impl : option F) : M F :=
  match impl with
  | Some f => ret f
  | None => raise (AttributeError "Database" name)
  end.

(** Class [Database] of database.py defines no [encode_channel_id] and no
    [decode_channel_id] (see [Database_attrs]). *)
Definition repo_encode_channel_id : option (Z -> string) := None.
Definition repo_decode_channel_id : option (string -> option Z) := None.

(** ** handlers.py *)

(** The body of the [/addchannel] handler from [status_msg = ...] on, once
    the admin check passed and [int(parts[1])] gave [channel_id]; the bot
    handle is [Config.BOT_USERNAME], set at start-up. *)
Definition add_channel_cmd (cfg : config) (encode_impl : option (Z -> string))
    (channel_id : Z) : M unit :=
  do _ <- emit (EvReply MsgPleaseWait);
  try_except
    (do channel_name <- client_get_chat channel_id;
     do invite_link <- try_except
                         (do l <- client_export_invite channel_id; ret (Some l))
                         (fun _ => ret None);
     do success <- db_add_channel channel_id channel_name invite_link;
     if negb success then emit (EvEdit MsgChannelExists)
     else
       do encode_channel_id <- lookup_method "encode_channel_id" encode_impl;
       let encoded := encode_channel_id channel_id in
       let normal_link := String.append "https://t.me/"
                            (String.append (BOT_USERNAME cfg)
                               (String.append "?start=" encoded)) in
       let request_link := String.append "https://t.me/"
                             (String.append (BOT_USERNAME cfg)
                                (String.append "?start=req_" encoded)) in
       do _ <- config_getattr cfg "TEMP_LINK_REVOKE_SECONDS";
       emit (EvEdit (MsgChannelAdded normal_link request_link)))
    (fun e => emit (EvEdit (MsgFailedAddChannel e))).

(** [handle_deep_link] (handlers.py), for the user [uid] who sent the
    payload; [decode_impl] is what [db.decode_channel_id] resolves to.
    [if not channel_id] also rejects the id [0], which Python treats as
    false. *)
Definition handle_deep_link (cfg : config) (decode_impl : option (string -> option Z))
    (uid : Z) (payload : string) : M unit :=
  try_except
    (let is_request_link := String.prefix "req_" payload in
     do decode_channel_id <- lookup_method "decode_channel_id" decode_impl;
     do _ <- emit (EvDecode payload);
     match decode_channel_id payload with
     | None | Some Z0 => emit (EvReply MsgInvalidLink)
     | Some channel_id =>
         do channel <- db_get_channel channel_id;
         match channel with
         | None => emit (EvReply MsgChannelNotFound)
         | Some _ =>
             do _ <- emit (EvReply MsgGenerating);
             try_except
               (do invite_link <- client_create_invite channel_id
                      (if is_request_link then CreatesJoinRequest else MemberLimit1) uid;
                do _ <- db_save_link cfg channel_id invite_link
                          (if is_request_link then "request" else "invite");
                do _ <- db_increment_channel_joins channel_id;
                let link_type_text :=
                  if is_request_link then "Request Link" else "Invite Link" in
                do secs <- config_getattr cfg "TEMP_LINK_REVOKE_SECONDS";
                do _ <- emit (EvEdit (MsgLinkGenerated link_type_text invite_link secs));
                do delay <- config_getattr cfg "TEMP_LINK_REVOKE_SECONDS";
                emit (EvScheduleRevoke channel_id invite_link delay))
               (fun _ => emit (EvEdit MsgFailedGenerate))
         end
     end)
    (fun e => emit (EvReply (MsgErrorOccurred e))).

(** [generate_invite_link] (handlers.py), reached from the callback
    [channel_<id>]; [uid] is [callback.from_user.id]. *)
Definition generate_invite_link (cfg : config) (channel_id : Z) (channel : channel)
    (uid : Z) : M unit :=
  try_except
    (do _ <- emit (EvAnswer MsgGeneratingLinkAnswer);
     do invite_link <- client_create_invite channel_id MemberLimit1 uid;
     do _ <- db_save_link cfg channel_id invite_link "invite";
     do _ <- db_increment_channel_joins channel_id;
     emit (EvEdit (MsgChannelInfo channel invite_link)))
    (fun _ => emit (EvEdit MsgFailedGenerate)).

(** The [data.startswith("channel_")] branch of [callback_handler], once
    [int(data.split("_")[1])] gave [channel_id]. *)
Definition callback_channel (cfg : config) (channel_id : Z) (uid : Z) : M unit :=
  do channel <- db_get_channel channel_id;
  match channel with
  | None => emit (EvAnswer MsgChannelNotFoundAlert)
  | Some c => generate_invite_link cfg channel_id c uid
  end.

(** [LinkVaultBot.cleanup_task] (main.py): each hourly pass is one call of
    [db.cleanup_expired_links()]; its errors are logged and the loop goes on. *)
Definition cleanup_pass : M unit :=
  try_except db_cleanup_expired_links (fun _ => ret tt).

(** ** Store operations of an issuance

    Issuance touches the store through exactly two MongoDB operations, each
    atomic on its own: the [insert_one] of [save_link] and the
    [$inc total_joins] of [increment_channel_joins]. Concurrent issuances
    (pyrogram runs handlers as concurrent tasks) interleave these
    operations in any order. *)

Inductive store_op :=
  | OpInsertLink (l : link)
  | OpIncJoins (channel_id : Z).

Definition apply_store_op (s : store) (op : store_op) : store :=
  match op with
  | OpInsertLink l => mkStore (st_channels s) (st_users s) (st_links s ++ [l])
  | OpIncJoins cid =>
      mkStore (update_one_channel cid inc_total_joins (st_channels s))
        (st_users s) (st_links s)
  end.

Definition run_store_ops (s : store) (ops : list store_op) : store :=
  fold_left apply_store_op ops s.

(** The link record [save_link] writes for clock reads [t1], [t2]. *)
Definition saved_link (cfg : config) (channel_id : Z) (invite_link link_type : string)
    (t1 t2 : Z) : link :=
  mkLink channel_id invite_link link_type (bson_date t1) (bson_date (t2 + link_ttl cfg)) 0 true.

(** The two store operations of one issuance, given its invite string, its
    link type and the two clock reads of [save_link]. *)
Definition issuance_ops (cfg : config) (channel_id : Z)
    (req : string * string * Z * Z) : list store_op :=
  let '(inv, ty, t1, t2) := req in
  [OpInsertLink (saved_link cfg channel_id inv ty t1 t2); OpIncJoins channel_id].

Definition inserted_links (ops : list store_op) : list link :=
  flat_map (fun op => match op with OpInsertLink l => [l] | OpIncJoins _ => [] end) ops.

Definition incs_of (channel_id : Z) (ops : list store_op) : nat :=
  length (List.filter (fun op => match op with
                                 | OpIncJoins c => Z.eqb c channel_id
                                 | OpInsertLink _ => false end) ops).

(** ** database.py: the other channel, user and link operations *)

(** [Database.get_all_channels]: [channels.find({"is_active": True})]. *)
Definition db_get_all_channels : M (list channel) :=
  do s <- get_store; ret (List.filter ch_is_active (st_channels s)).

Definition set_auto_approve (enabled : bool) (c : channel) : channel :=
  mkChannel (ch_channel_id c) (ch_channel_name c) (ch_invite_link c)
    (ch_added_at c) (ch_total_joins c) (ch_is_active c) enabled.

(** [channels.update_one({"channel_id": id}, {"$set": {"auto_approve": e}})]
    with its [modified_count]: MongoDB counts the matched document as
    modified only when the update changes it. *)
Fixpoint set_auto_approve_one (channel_id : Z) (enabled : bool) (l : list channel)
    : list channel * Z :=
  match l with
  | [] => ([], 0)
  | c :: l' =>
      if channel_has_id channel_id c then
        (set_auto_approve enabled c :: l',
         if Bool.eqb (ch_auto_approve c) enabled then 0 else 1)
      else let '(r, n) := set_auto_approve_one channel_id enabled l' in (c :: r, n)
  end.

(** [Database.toggle_auto_approve] *)
Definition db_toggle_auto_approve (channel_id : Z) (enabled : bool) : M bool :=
  try_except
    (do s <- get_store;
     let '(chs, modified_count) := set_auto_approve_one channel_id enabled (st_channels s) in
     do _ <- put_store (mkStore chs (st_users s) (st_links s));
     ret (Z.ltb 0 modified_count))
    (fun _ => ret false).

Definition is_banned_as (banned : bool) (d : gmap string value) : bool :=
  match d !! "is_banned"%string with
  | Some (VBool b) => Bool.eqb b banned
  | _ => false
  end.

(** [users.update_one({"user_id": id}, {"$set": {"is_banned": banned}})]
    with its [modified_count]. *)
Fixpoint set_banned_one (user_id : Z) (banned : bool) (l : list (gmap string value))
    : list (gmap string value) * Z :=
  match l with
  | [] => ([], 0)
  | d :: l' =>
      if user_has_id user_id d then
        (<[ "is_banned"%string := VBool banned ]> d :: l',
         if is_banned_as banned d then 0 else 1)
      else let '(r, n) := set_banned_one user_id banned l' in (d :: r, n)
  end.

(** [Database.ban_user] *)
Definition db_ban_user (user_id : Z) (banned : bool) : M bool :=
  try_except
    (do s <- get_store;
     let '(us, modified_count) := set_banned_one user_id banned (st_users s) in
     do _ <- put_store (mkStore (st_channels s) us (st_links s));
     ret (Z.ltb 0 modified_count))
    (fun _ => ret false).

(** [Database.get_user]: [users.find_one({"user_id": user_id})]. *)
Definition db_get_user (user_id : Z) : M (option (gmap string value)) :=
  do s <- get_store; ret (List.find (user_has_id user_id) (st_users s)).

(** The filter of [get_active_link] and of the [active_links] count. The
    [$gt] bound is compared here at full precision; against a stored
    [expires_at], a whole number of milliseconds, [e > now] and
    [e > bson_date now] agree. *)
Definition link_valid_at (now : Z) (k : link) : bool :=
  lk_is_active k && Z.ltb now (lk_expires_at k).

(** [Database.get_active_link]: [links.find_one({"channel_id": id,
    "is_active": True, "expires_at": {"$gt": utcnow()}})]. *)
Definition db_get_active_link (channel_id : Z) : M (option link) :=
  do now <- utcnow;
  do s <- get_store;
  ret (List.find (fun k => Z.eqb (lk_channel_id k) channel_id && link_valid_at now k)
         (st_links s)).

Definition inc_uses (k : link) : link :=
  mkLink (lk_channel_id k) (lk_invite_link k) (lk_link_type k) (lk_created_at k)
    (lk_expires_at k) (lk_uses k + 1) (lk_is_active k).

Fixpoint update_one_link (p : link -> bool) (f : link -> link) (l : list link) : list link :=
  match l with
  | [] => []
  | k :: l' => if p k then f k :: l' else k :: update_one_link p f l'
  end.

(** [Database.increment_link_uses]: [$inc uses 1] on the first link
    record with this invite string. *)
Definition db_increment_link_uses (invite_link : string) : M unit :=
  do s <- get_store;
  put_store (mkStore (st_channels s) (st_users s)
               (update_one_link (fun k => String.eqb (lk_invite_link k) invite_link)
                  inc_uses (st_links s))).

(** [Database.get_active_users]: users whose [last_active] date is at or
    after [utcnow() - timedelta(days=days)], the bound sent as a BSON date. *)
Definition active_since (cutoff : Z) (d : gmap string value) : bool :=
  match d !! "last_active"%string with
  | Some (VDate t) => Z.leb cutoff t
  | _ => false
  end.

Definition db_get_active_users (days : Z) : M Z :=
  do now <- utcnow;
  let cutoff_date := now - days * 86400 * 1000000 in
  do s <- get_store;
  ret (Z.of_nat (length (List.filter (active_since (bson_date cutoff_date)) (st_users s)))).

Record stats := mkStats {
  stat_total_users : Z;
  stat_active_users : Z;
  stat_total_channels : Z;
  stat_active_links : Z;
  stat_total_joins : Z
}.

(** The [$group]/[$sum] pipeline over all channel records; an empty
    collection gives no group, and the code falls back to 0. *)
Definition sum_total_joins (l : list channel) : Z :=
  match l with
  | [] => 0
  | _ => fold_right (fun c acc => ch_total_joins c + acc) 0 l
  end.

(** [Database.get_stats] *)
Definition db_get_stats : M stats :=
  do s0 <- get_store;
  let total_users := Z.of_nat (length (st_users s0)) in
  do active_users <- db_get_active_users 7;
  do s1 <- get_store;
  let total_channels := Z.of_nat (length (List.filter ch_is_active (st_channels s1))) in
  do now <- utcnow;
  do s2 <- get_store;
  let active_links := Z.of_nat (length (List.filter (link_valid_at now) (st_links s2))) in
  do s3 <- get_store;
  ret (mkStats total_users active_users total_channels active_links
         (sum_total_joins (st_channels s3))).

(** ** Python string and integer built-ins used by the handlers

    Strings are UTF-8 byte strings; [len], slicing and [isspace] below
    work on code points, as Python's [str] does, for valid UTF-8. *)

(** A UTF-8 continuation byte [10xxxxxx]. *)
Definition utf8_cont (c : ascii) : bool :=
  let n := Ascii.nat_of_ascii c in Nat.leb 128 n && Nat.ltb n 192.

(** [len(s)]: the number of code points. *)
Fixpoint py_len (s : string) : nat :=
  match s with
  | EmptyString => 0
  | String c r => (if utf8_cont c then 0 else 1) + py_len r
  end.

(** [s[:n]] for [n >= 0]: the first [n] code points. *)
Fixpoint py_take (n : nat) (s : string) : string :=
  match s with
  | EmptyString => EmptyString
  | String c r =>
      if utf8_cont c then String c (py_take n r)
      else match n with
           | O => EmptyString
           | S n' => String c (py_take n' r)
           end
  end.

(** [str.isspace] on one character, ASCII range: [\t \n \v \f \r],
    [\x1c]..[\x1f] and the space. *)
Definition py_isspace (c : ascii) : bool :=
  let n := Ascii.nat_of_ascii c in
  (Nat.leb 9 n && Nat.leb n 13) || (Nat.leb 28 n && Nat.leb n 32).

Fixpoint py_lstrip (s : string) : string :=
  match s with
  | EmptyString => EmptyString
  | String c r => if py_isspace c then py_lstrip r else s
  end.

Fixpoint py_rstrip (s : string) : string :=
  match s with
  | EmptyString => EmptyString
  | String c r =>
      match py_rstrip r with
      | EmptyString => if py_isspace c then EmptyString else String c EmptyString
      | r' => String c r'
      end
  end.

(** [s.strip()] *)
Definition py_strip (s : string) : string := py_rstrip (py_lstrip s).

(** [s.split(sep)] with a one-character separator: empty pieces are kept. *)
Fixpoint py_split_char (sep : ascii) (s : string) : list string :=
  match s with
  | EmptyString => [EmptyString]
  | String c r =>
      let parts := py_split_char sep r in
      if Ascii.eqb c sep then EmptyString :: parts
      else match parts with
           | p :: ps => String c p :: ps
           | [] => [String c EmptyString]
           end
  end.

(** The leading run of non-whitespace characters, and the rest. *)
Fixpoint py_span_nonspace (s : string) : string * string :=
  match s with
  | EmptyString => (EmptyString, EmptyString)
  | String c r =>
      if py_isspace c then (EmptyString, s)
      else let '(t, rest) := py_span_nonspace r in (String c t, rest)
  end.

(** [s.split(maxsplit=1)]: split on whitespace runs, at most once; the
    second piece keeps its trailing whitespace. *)
Definition py_split_max1 (s : string) : list string :=
  match py_lstrip s with
  | EmptyString => []
  | s1 =>
      let '(tok, rest) := py_span_nonspace s1 in
      match py_lstrip rest with
      | EmptyString => [tok]
      | rest' => [tok; rest']
      end
  end.

Definition uint_digit (c : ascii) : option (Decimal.uint -> Decimal.uint) :=
  if Ascii.eqb c "0" then Some Decimal.D0
  else if Ascii.eqb c "1" then Some Decimal.D1
  else if Ascii.eqb c "2" then Some Decimal.D2
  else if Ascii.eqb c "3" then Some Decimal.D3
  else if Ascii.eqb c "4" then Some Decimal.D4
  else if Ascii.eqb c "5" then Some Decimal.D5
  else if Ascii.eqb c "6" then Some Decimal.D6
  else if Ascii.eqb c "7" then Some Decimal.D7
  else if Ascii.eqb c "8" then Some Decimal.D8
  else if Ascii.eqb c "9" then Some Decimal.D9
  else None.

(** The digits of an [int] literal: at least one digit, and single
    underscores only between digits ("1_000"). *)
Fixpoint parse_uint (s : string) : option Decimal.uint :=
  match s with
  | EmptyString => None
  | String c r =>
      match uint_digit c with
      | None => None
      | Some d =>
          match r with
          | EmptyString => Some (d Decimal.Nil)
          | String c2 r2 =>
              if Ascii.eqb c2 "_" then option_map d (parse_uint r2)
              else option_map d (parse_uint r)
          end
      end
  end.

(** [int(s)]: surrounding whitespace, an optional sign, then decimal
    digits; [None] is the [ValueError]. *)
Definition py_int (s : string) : option Z :=
  match py_strip s with
  | String c r =>
      if Ascii.eqb c "-" then option_map (fun u => - Z.of_uint u) (parse_uint r)
      else if Ascii.eqb c "+" then option_map Z.of_uint (parse_uint r)
      else option_map Z.of_uint (parse_uint (String c r))
  | EmptyString => None
  end.

Fixpoint uint_to_string (u : Decimal.uint) : string :=
  match u with
  | Decimal.Nil => EmptyString
  | Decimal.D0 u => String "0" (uint_to_string u)
  | Decimal.D1 u => String "1" (uint_to_string u)
  | Decimal.D2 u => String "2" (uint_to_string u)
  | Decimal.D3 u => String "3" (uint_to_string u)
  | Decimal.D4 u => String "4" (uint_to_string u)
  | Decimal.D5 u => String "5" (uint_to_string u)
  | Decimal.D6 u => String "6" (uint_to_string u)
  | Decimal.D7 u => String "7" (uint_to_string u)
  | Decimal.D8 u => String "8" (uint_to_string u)
  | Decimal.D9 u => String "9" (uint_to_string u)
  end.

(** [str(n)] (and [f"{n}"]) for an [int]. *)
Definition py_str_int (n : Z) : string :=
  match Z.to_int n with
  | Decimal.Pos u => uint_to_string u
  | Decimal.Neg u => String "-" (uint_to_string u)
  end.

(** [l[a:b]] on a list, with Python's clamping of negative and
    out-of-range bounds. *)
Definition py_slice_index (len i : Z) : Z :=
  if Z.ltb i 0 then Z.max 0 (len + i) else Z.min i len.

Definition py_slice {A} (l : list A) (a b : Z) : list A :=
  let n := Z.of_nat (length l) in
  let a' := py_slice_index n a in
  let b' := py_slice_index n b in
  if Z.ltb a' b' then firstn (Z.to_nat (b' - a')) (skipn (Z.to_nat a') l) else [].

(** ** ui_components.py: keyboards *)

Record button := mkButton {
  btn_text : string;
  btn_callback_data : string
}.

Definition keyboard := list (list button).

Definition Colors_CHANNEL : string := "📢".
Definition Colors_INFO : string := "ℹ️".
Definition Colors_STATS : string := "📊".
Definition Colors_ADMIN : string := "👑".
Definition Colors_USER : string := "👤".
Definition Colors_LINK : string := "🔗".
Definition Colors_SUCCESS : string := "✅".
Definition Colors_ERROR : string := "❌".

(** [Config.MAX_CHANNELS_PER_PAGE] *)
Definition MAX_CHANNELS_PER_PAGE : Z := 8.

(** [UI.start_menu] *)
Definition start_menu (is_admin : bool) : keyboard :=
  [[mkButton (Colors_CHANNEL ++ " Get Links") "get_links";
    mkButton (Colors_INFO ++ " Help") "help"];
   [mkButton (Colors_STATS ++ " Statistics") "stats"]] ++
  (if is_admin then [[mkButton (Colors_ADMIN ++ " Admin Panel") "admin_panel"]] else []).

(** [UI.admin_panel] *)
Definition admin_panel : keyboard :=
  [[mkButton (Colors_CHANNEL ++ " Manage Channels") "manage_channels"];
   [mkButton (Colors_STATS ++ " Bot Stats") "admin_stats";
    mkButton (Colors_USER ++ " User Stats") "user_stats"];
   [mkButton "📢 Broadcast" "broadcast"; mkButton "🔧 Settings" "settings"];
   [mkButton "« Back to Menu" "start"]].

(** The label of a channel button: names longer than 20 code points are
    cut to 20 and get "...". *)
Definition display_name (channel_name : string) : string :=
  if Nat.ltb 20 (py_len channel_name) then py_take 20 channel_name ++ "..."
  else channel_name.

Definition channel_button (c : channel) : button :=
  mkButton (Colors_CHANNEL ++ " " ++ display_name (ch_channel_name c))
    ("channel_" ++ py_str_int (ch_channel_id c)).

(** The rows of the loop [for i in range(0, len(xs), 2): xs[i:i+2]]. *)
Fixpoint rows_of_two {A} (xs : list A) : list (list A) :=
  match xs with
  | [] => []
  | [x] => [[x]]
  | x :: y :: r => [x; y] :: rows_of_two r
  end.

Definition total_pages (n : nat) : Z :=
  (Z.of_nat n - 1) / MAX_CHANNELS_PER_PAGE + 1.

(** [UI.channel_list_keyboard] *)
Definition channel_list_keyboard (channels : list channel) (page : Z) : keyboard :=
  let start_idx := page * MAX_CHANNELS_PER_PAGE in
  let end_idx := start_idx + MAX_CHANNELS_PER_PAGE in
  let page_channels := py_slice channels start_idx end_idx in
  let buttons := map (map channel_button) (rows_of_two page_channels) in
  let tp := total_pages (length channels) in
  let nav_buttons :=
    (if Z.ltb 0 page then [mkButton "« Previous" ("page_" ++ py_str_int (page - 1))] else []) ++
    [mkButton ("📄 " ++ py_str_int (page + 1) ++ "/" ++ py_str_int tp) "noop"] ++
    (if Z.ltb page (tp - 1) then [mkButton "Next »" ("page_" ++ py_str_int (page + 1))]
     else []) in
  buttons ++ (match nav_buttons with [] => [] | _ => [nav_buttons] end) ++
  [[mkButton "« Back to Menu" "start"]].

(** [UI.channel_action_menu] *)
Definition channel_action_menu (channel_id : Z) : keyboard :=
  [[mkButton (Colors_LINK ++ " Generate Link") ("genlink_" ++ py_str_int channel_id)];
   [mkButton (Colors_LINK ++ " Request Link") ("reqlink_" ++ py_str_int channel_id)];
   [mkButton "🔄 Refresh Info" ("refresh_" ++ py_str_int channel_id);
    mkButton "❌ Delete" ("delete_" ++ py_str_int channel_id)];
   [mkButton "« Back to Channels" "get_links"]].

(** [UI.confirm_delete] *)
Definition confirm_delete (channel_id : Z) : keyboard :=
  [[mkButton (Colors_SUCCESS ++ " Yes, Delete") ("confirm_delete_" ++ py_str_int channel_id);
    mkButton (Colors_ERROR ++ " Cancel") ("channel_" ++ py_str_int channel_id)]].

(** [UI.close_button] *)
Definition close_button : keyboard := [[mkButton "❌ Close" "close"]].

(** ** ui_components.py: time formatting *)

(** The loop of [get_readable_time] over [intervals]. *)
Fixpoint readable_parts (intervals : list (string * Z)) (seconds : Z)
    (result : list string) : list string :=
  match intervals with
  | [] => result
  | (name, count) :: r =>
      let value := seconds / count in
      if Z.eqb value 0 then readable_parts r seconds result
      else readable_parts r (seconds - value * count)
             (result ++ [(py_str_int value ++ " " ++ name)%string])
  end.

Definition readable_intervals : list (string * Z) :=
  [("days", 86400); ("hours", 3600); ("minutes", 60); ("seconds", 1)]%string.

(** [get_readable_time] *)
Definition get_readable_time (seconds : Z) : string :=
  match readable_parts readable_intervals seconds [] with
  | [] => "0 seconds"
  | result => String.concat ", " (firstn 2 result)
  end.

(** [format_time_ago]: [diff = now - dt] as a [timedelta], whose [days]
    is the floor of the difference in days and whose [seconds] is the
    remainder in whole seconds, in [0, 86399]. *)
Definition format_time_ago (dt : Z) : M string :=
  do now <- utcnow;
  let diff := now - dt in
  let days := diff / (86400 * 1000000) in
  let seconds := (diff mod (86400 * 1000000)) / 1000000 in
  ret ((if Z.ltb 365 days then py_str_int (days / 365) ++ " year(s) ago"
       else if Z.ltb 30 days then py_str_int (days / 30) ++ " month(s) ago"
       else if Z.ltb 0 days then py_str_int days ++ " day(s) ago"
       else if Z.ltb 3600 seconds then py_str_int (seconds / 3600) ++ " hour(s) ago"
       else if Z.ltb 60 seconds then py_str_int (seconds / 60) ++ " minute(s) ago"
       else "just now")%string).

(** ** handlers.py: callback dispatch and admin commands *)

(** The branch of [callback_handler] that a [callback_data] string takes;
    for "page_" and "channel_" the result of [int(data.split("_")[1])],
    [None] when it raises ([ValueError] or [IndexError]). *)
Inductive cb_route :=
  | RouteStart
  | RouteHelp
  | RouteStats
  | RouteGetLinks
  | RoutePage (page : option Z)
  | RouteChannel (channel_id : option Z)
  | RouteAdminPanel
  | RouteAdminStats
  | RouteClose
  | RouteNoop
  | RouteComingSoon.

Definition int_of_second_piece (data : string) : option Z :=
  match nth_error (py_split_char "_" data) 1 with
  | Some p => py_int p
  | None => None
  end.

Definition callback_route (data : string) : cb_route :=
  if String.eqb data "start" then RouteStart
  else if String.eqb data "help" then RouteHelp
  else if String.eqb data "stats" then RouteStats
  else if String.eqb data "get_links" then RouteGetLinks
  else if String.prefix "page_" data then RoutePage (int_of_second_piece data)
  else if String.prefix "channel_" data then RouteChannel (int_of_second_piece data)
  else if String.eqb data "admin_panel" then RouteAdminPanel
  else if String.eqb data "admin_stats" then RouteAdminStats
  else if String.eqb data "close" then RouteClose
  else if String.eqb data "noop" then RouteNoop
  else RouteComingSoon.

(** The replies of [remove_channel_command]. *)
Inductive remove_reply :=
  | RemoveAccessDenied
  | RemoveUsage
  | RemoveInvalidId
  | RemoveDone (channel_id : Z)
  | RemoveNotFound.

(** [remove_channel_command]; the reply it sends is its result. *)
Definition remove_channel_command (cfg : config) (uid : Z) (text : string)
    : M remove_reply :=
  if negb (is_admin cfg uid) then ret RemoveAccessDenied
  else
    match py_split_max1 text with
    | _ :: arg :: _ =>
        match py_int (py_strip arg) with
        | None => ret RemoveInvalidId
        | Some channel_id =>
            do success <- db_remove_channel channel_id;
            ret (if success then RemoveDone channel_id else RemoveNotFound)
        end
    | _ => ret RemoveUsage
    end.

(** The replies of [broadcast_command] (the "Starting broadcast..."
    status message is not modelled, only the reply the handler ends on). *)
Inductive broadcast_reply :=
  | BroadcastAccessDenied
  | BroadcastNoTarget
  | BroadcastDone (sent failed : Z).

(** The loop over [db.users.find({})]: [copy_ok] says whether
    [reply_to_message.copy(user["user_id"])] succeeds. A document without
    [user_id] raises [KeyError] inside [try]; the [except] branch reads
    [user['user_id']] again for its log line, and that [KeyError] leaves
    the handler. *)
Fixpoint broadcast_loop (copy_ok : value -> bool) (users : list (gmap string value))
    (success_count failed_count : Z) : exn + (Z * Z) :=
  match users with
  | [] => inr (success_count, failed_count)
  | user :: r =>
      match user !! "user_id"%string with
      | Some v =>
          if copy_ok v then broadcast_loop copy_ok r (success_count + 1) failed_count
          else broadcast_loop copy_ok r success_count (failed_count + 1)
      | None => inl (PyError "KeyError: 'user_id'")
      end
  end.

(** [broadcast_command]; [has_reply] is [message.reply_to_message]. *)
Definition broadcast_command (cfg : config) (uid : Z) (has_reply : bool)
    (copy_ok : value -> bool) : M broadcast_reply :=
  if negb (is_admin cfg uid) then ret BroadcastAccessDenied
  else if negb has_reply then ret BroadcastNoTarget
  else
    do s <- get_store;
    match broadcast_loop copy_ok (st_users s) 0 0 with
    | inl e => raise e
    | inr (success_count, failed_count) => ret (BroadcastDone success_count failed_count)
    end.

(** ** Sample data for the concrete runs *)

Definition cfg_default : config := mkConfig 1 [] 5 "LinkVaultBot".

(** A clock advancing one microsecond per [utcnow()] call. *)
Definition clock_us (n : nat) : Z := 1767225600000000 + Z.of_nat n.

Definition chan_news : channel :=
  mkChannel (-1001234567890) "News" None 1767225600000000 3 true false.
Definition chan_off : channel :=
  mkChannel (-1009876543210) "Archive" None 1767225600000000 7 false false.

Definition link_a : link :=
  mkLink (-1001234567890) "https://t.me/+aaa" "invite" 0 300000000 0 true.
Definition link_b : link :=
  mkLink (-1009876543210) "https://t.me/+bbb" "request" 0 300000000 1 false.

Definition store_sample : store :=
  mkStore [chan_news; chan_off] [] [link_a; link_b].

(** A world whose chat client answers every call successfully. *)
Definition world_ok (s : store) : world :=
  mkWorld s [] 0 clock_us (fun _ => Some "News") (fun _ => Some "https://t.me/+perm")
    (fun _ _ => Some "https://t.me/+new").

(** A world whose chat client refuses to create invites. *)
Definition world_no_invite (s : store) : world :=
  mkWorld s [] 0 clock_us (fun _ => Some "News") (fun _ => None) (fun _ _ => None).

(** A world whose chat client refuses invites for the channel [refused]
    only. *)
Definition world_refusing (s : store) (refused : Z) : world :=
  mkWorld s [] 0 clock_us (fun _ => Some "News") (fun _ => Some "https://t.me/+perm")
    (fun cid _ => if Z.eqb cid refused then None else Some "https://t.me/+new").

(** A world like [world_ok] whose clock starts at [base] microseconds. *)
Definition world_at (s : store) (base : Z) : world :=
  mkWorld s [] 0 (fun n => base + Z.of_nat n) (fun _ => Some "News")
    (fun _ => Some "https://t.me/+perm") (fun _ _ => Some "https://t.me/+new").

(** A link that expires at 2026-01-01T00:00:00.000. *)
Definition link_edge : link :=
  mkLink (-1001234567890) "https://t.me/+edge" "invite" 1767225300000000
    1767225600000000 0 true.

(** * Proofs *)

(** ** Collection lemmas *)

Lemma filter_not_id_notin (cid : Z) (l : list channel) :
  ~ In cid (map ch_channel_id l) ->
  List.filter (fun c => negb (channel_has_id cid c)) l = l.
Proof.
  induction l as [|c l IH]; intros Hn; simpl in *; [reflexivity|].
  unfold channel_has_id at 1. destruct (Z.eqb_spec (ch_channel_id c) cid).
  - exfalso. apply Hn. left. assumption.
  - simpl. rewrite IH; [reflexivity|]. intros Hin. apply Hn. right. exact Hin.
Qed.

Lemma delete_one_channel_notin (cid : Z) (l : list channel) :
  ~ In cid (map ch_channel_id l) -> delete_one_channel cid l = (l, 0).
Proof.
  induction l as [|c l IH]; intros Hn; simpl in *; [reflexivity|].
  unfold channel_has_id at 1. destruct (Z.eqb_spec (ch_channel_id c) cid).
  - exfalso. apply Hn. left. assumption.
  - rewrite IH; [reflexivity|]. intros Hin. apply Hn. right. exact Hin.
Qed.

Lemma delete_one_channel_unique (cid : Z) (l : list channel) :
  List.NoDup (map ch_channel_id l) -> In cid (map ch_channel_id l) ->
  delete_one_channel cid l = (List.filter (fun c => negb (channel_has_id cid c)) l, 1).
Proof.
  induction l as [|c l IH]; intros Hnd Hin; simpl in *; [contradiction|].
  apply NoDup_cons_iff in Hnd as [Hc Hnd].
  destruct (channel_has_id cid c) eqn:E; simpl.
  - apply Z.eqb_eq in E.
    rewrite filter_not_id_notin; [reflexivity|]. rewrite <- E. exact Hc.
  - apply Z.eqb_neq in E. destruct Hin as [Hin|Hin]; [contradiction|].
    rewrite IH by assumption. reflexivity.
Qed.

Lemma find_update_one_same (cid : Z) (f : channel -> channel) (l : list channel) :
  (forall c, ch_channel_id (f c) = ch_channel_id c) ->
  find_channel cid (update_one_channel cid f l) = option_map f (find_channel cid l).
Proof.
  intros Hf. unfold find_channel.
  induction l as [|c l IH]; simpl; [reflexivity|].
  destruct (channel_has_id cid c) eqn:E; simpl.
  - unfold channel_has_id in *. rewrite Hf, E. reflexivity.
  - rewrite E. exact IH.
Qed.

Lemma find_update_one_other (cid d : Z) (f : channel -> channel) (l : list channel) :
  d <> cid -> (forall c, ch_channel_id (f c) = ch_channel_id c) ->
  find_channel cid (update_one_channel d f l) = find_channel cid l.
Proof.
  intros Hd Hf. unfold find_channel.
  induction l as [|c l IH]; simpl; [reflexivity|].
  destruct (channel_has_id d c) eqn:E; simpl.
  - unfold channel_has_id in *. rewrite Hf.
    apply Z.eqb_eq in E. rewrite E. destruct (Z.eqb_spec d cid); [contradiction|].
    reflexivity.
  - destruct (channel_has_id cid c); [reflexivity|exact IH].
Qed.

Lemma inc_total_joins_id (c : channel) : ch_channel_id (inc_total_joins c) = ch_channel_id c.
Proof. reflexivity. Qed.

Lemma filter_expired_In (now : Z) (l : list link) (k : link) :
  In k (delete_links_expired_before now l) <-> In k l /\ now <= lk_expires_at k.
Proof.
  unfold delete_links_expired_before. rewrite filter_In.
  destruct (Z.ltb_spec (lk_expires_at k) now); simpl; split; intros H'; try tauto;
    destruct H' as [_ H']; lia.
Qed.

(** ** Expiry sweeper, channel removal *)

(** C7 (as the code behaves): one pass of the expiry sweeper deletes
    exactly the link records whose [expires_at] is strictly before the
    sweep's clock read cut to whole milliseconds (the BSON date the [$lt]
    bound is sent as); every other link record stays as it was (same
    record, same order), and [is_active] plays no part; channels and users
    are untouched. *)
Theorem cleanup_pass_deletes_exactly_expired (w : world) :
  let now := bson_date (w_time w (w_tick w)) in
  let s := w_store w in
  let s' := w_store (snd (cleanup_pass w)) in
  st_links s' = delete_links_expired_before now (st_links s) /\
  st_channels s' = st_channels s /\ st_users s' = st_users s /\
  (forall k, In k (st_links s) -> lk_expires_at k < now -> ~ In k (st_links s')) /\
  (forall k, In k (st_links s) -> now <= lk_expires_at k -> In k (st_links s')).
Proof.
  cbn. repeat split; try reflexivity.
  - intros k _ Hlt Hin. apply filter_expired_In in Hin. lia.
  - intros k Hin Hle. apply filter_expired_In. tauto.
Qed.

(** C7 (counterexample): a link expiring at 00:00:00.000, swept when the
    clock reads 00:00:00.000400, has its [expires_at] strictly before the
    sweep time, and the sweep keeps it. *)
Lemma sweep_keeps_link_expired_within_millisecond :
  let w := world_at (mkStore [] [] [link_edge]) 1767225600000400 in
  lk_expires_at link_edge < w_time w (w_tick w) /\
  In link_edge (st_links (w_store w)) /\
  In link_edge (st_links (w_store (snd (cleanup_pass w)))).
Proof.
  cbn. split; [lia|]. split; [left; reflexivity|]. vm_compute. left. reflexivity.
Qed.

(** C9: removing a registered channel (channel ids are unique, by the
    unique index) deletes its record and every link record that references
    it, and keeps every other channel record and every other link record. *)
Theorem remove_channel_cascades (w : world) (cid : Z) :
  List.NoDup (map ch_channel_id (st_channels (w_store w))) ->
  In cid (map ch_channel_id (st_channels (w_store w))) ->
  fst (db_remove_channel cid w) = inr true /\
  st_channels (w_store (snd (db_remove_channel cid w))) =
    List.filter (fun c => negb (channel_has_id cid c)) (st_channels (w_store w)) /\
  st_links (w_store (snd (db_remove_channel cid w))) =
    delete_links_of cid (st_links (w_store w)) /\
  st_users (w_store (snd (db_remove_channel cid w))) = st_users (w_store w).
Proof.
  intros Hnd Hin. unfold db_remove_channel, try_except, bind, get_store, put_store.
  cbn. rewrite (delete_one_channel_unique cid _ Hnd Hin). cbn.
  repeat split; reflexivity.
Qed.

Lemma remove_channel_cascades_witness :
  List.NoDup (map ch_channel_id (st_channels store_sample)) /\
  In (-1001234567890) (map ch_channel_id (st_channels store_sample)) /\
  fst (db_remove_channel (-1001234567890) (world_ok store_sample)) = inr true /\
  st_channels (w_store (snd (db_remove_channel (-1001234567890) (world_ok store_sample)))) =
    [chan_off] /\
  st_links (w_store (snd (db_remove_channel (-1001234567890) (world_ok store_sample)))) =
    [link_b].
Proof.
  assert (Hnd : List.NoDup (map ch_channel_id (st_channels store_sample))).
  { simpl. constructor; [simpl; lia|]. constructor; [simpl; tauto|constructor]. }
  assert (Hin : In (-1001234567890) (map ch_channel_id (st_channels store_sample))).
  { simpl. left. reflexivity. }
  destruct (remove_channel_cascades (world_ok store_sample) (-1001234567890) Hnd Hin)
    as (H1 & H2 & H3 & _).
  split; [exact Hnd|]. split; [exact Hin|]. split; [exact H1|].
  split; [rewrite H2; reflexivity | rewrite H3; reflexivity].
Defined.

(** C10: removing an id with no channel record returns [False] and
    changes neither the channel collection nor the link collection (nor
    anything else in the store). *)
Theorem remove_channel_absent_noop (w : world) (cid : Z) :
  ~ In cid (map ch_channel_id (st_channels (w_store w))) ->
  fst (db_remove_channel cid w) = inr false /\
  w_store (snd (db_remove_channel cid w)) = w_store w.
Proof.
  intros Hn. unfold db_remove_channel, try_except, bind, get_store, put_store.
  cbn. rewrite (delete_one_channel_notin cid _ Hn). cbn.
  destruct (w_store w); split; reflexivity.
Qed.

Lemma remove_channel_absent_noop_witness :
  ~ In 5 (map ch_channel_id (st_channels store_sample)) /\
  fst (db_remove_channel 5 (world_ok store_sample)) = inr false /\
  w_store (snd (db_remove_channel 5 (world_ok store_sample))) = store_sample.
Proof.
  assert (Hn : ~ In 5 (map ch_channel_id (st_channels store_sample))).
  { simpl. lia. }
  split; [exact Hn|]. exact (remove_channel_absent_noop (world_ok store_sample) 5 Hn).
Defined.

Lemma w_store_add_event (e : event) (w : world) : w_store (add_event e w) = w_store w.
Proof. reflexivity. Qed.

Lemma w_create_invite_add_event (e : event) (w : world) :
  w_create_invite (add_event e w) = w_create_invite w.
Proof. reflexivity. Qed.

Lemma bson_date_le (t : Z) : bson_date t <= t.
Proof. unfold bson_date. rewrite Z.mul_comm. apply Z.mul_div_le. lia. Qed.

Lemma bson_date_add_ttl (t : Z) (cfg : config) :
  bson_date (t + link_ttl cfg) = bson_date t + link_ttl cfg.
Proof.
  unfold bson_date, link_ttl.
  replace (t + LINK_EXPIRY_MINUTES cfg * 60 * 1000000)
    with (t + LINK_EXPIRY_MINUTES cfg * 60000 * 1000) by ring.
  rewrite Z.div_add by lia. ring.
Qed.

(** ** Issuance *)

Lemma db_save_link_effect (cfg : config) (cid : Z) (inv ty : string) (w : world) :
  fst (db_save_link cfg cid inv ty w) = inr true /\
  w_store (snd (db_save_link cfg cid inv ty w)) =
    apply_store_op (w_store w)
      (OpInsertLink (saved_link cfg cid inv ty (w_time w (w_tick w))
                       (w_time w (S (w_tick w))))).
Proof. split; reflexivity. Qed.

Lemma db_increment_channel_joins_effect (cid : Z) (w : world) :
  w_store (snd (db_increment_channel_joins cid w)) =
    apply_store_op (w_store w) (OpIncJoins cid).
Proof. reflexivity. Qed.

Lemma run_store_ops_links (s : store) (ops : list store_op) :
  st_links (run_store_ops s ops) = st_links s ++ inserted_links ops.
Proof.
  unfold run_store_ops. revert s.
  induction ops as [|op ops IH]; intros s; simpl.
  - rewrite app_nil_r. reflexivity.
  - rewrite IH. destruct op; simpl; [rewrite <- app_assoc|]; reflexivity.
Qed.

Lemma run_store_ops_find (cid : Z) (ops : list store_op) :
  forall (s : store) (c : channel),
  find_channel cid (st_channels s) = Some c ->
  exists c', find_channel cid (st_channels (run_store_ops s ops)) = Some c' /\
             ch_total_joins c' = ch_total_joins c + Z.of_nat (incs_of cid ops).
Proof.
  unfold run_store_ops, incs_of.
  induction ops as [|op ops IH]; intros s c Hf; simpl.
  - exists c. split; [exact Hf|lia].
  - destruct op as [l|d]; simpl.
    + apply (IH _ c). exact Hf.
    + destruct (Z.eqb_spec d cid) as [->|Hd]; simpl.
      * destruct (IH (apply_store_op s (OpIncJoins cid)) (inc_total_joins c)) as (c' & H1 & H2).
        { simpl. rewrite find_update_one_same by apply inc_total_joins_id.
          rewrite Hf. reflexivity. }
        exists c'. split; [exact H1|]. rewrite H2. simpl. lia.
      * apply IH. simpl. rewrite find_update_one_other by (auto using inc_total_joins_id).
        exact Hf.
Qed.

Lemma inserted_links_perm (ops ops' : list store_op) :
  Permutation ops ops' -> Permutation (inserted_links ops) (inserted_links ops').
Proof.
  unfold inserted_links. induction 1; simpl.
  - constructor.
  - apply Permutation_app_head. assumption.
  - destruct x, y; simpl; try reflexivity. apply perm_swap.
  - etransitivity; eassumption.
Qed.

Lemma incs_of_perm (cid : Z) (ops ops' : list store_op) :
  Permutation ops ops' -> incs_of cid ops = incs_of cid ops'.
Proof.
  unfold incs_of. induction 1; simpl.
  - reflexivity.
  - destruct x as [k|d]; [|destruct (Z.eqb d cid)]; simpl; congruence.
  - destruct x as [k|d], y as [k'|d']; simpl;
      repeat match goal with |- context [Z.eqb ?a ?b] => destruct (Z.eqb a b) end;
      simpl; congruence.
  - congruence.
Qed.

Lemma inserted_links_issuances (cfg : config) (cid : Z) (issues : list (string * string * Z * Z)) :
  inserted_links (flat_map (issuance_ops cfg cid) issues) =
    map (fun r => let '(inv, ty, t1, t2) := r in saved_link cfg cid inv ty t1 t2) issues.
Proof.
  unfold inserted_links. induction issues as [|[[[inv ty] t1] t2] r IH]; simpl; [reflexivity|].
  rewrite IH. reflexivity.
Qed.

Lemma incs_of_issuances (cfg : config) (cid : Z) (issues : list (string * string * Z * Z)) :
  incs_of cid (flat_map (issuance_ops cfg cid) issues) = length issues.
Proof.
  unfold incs_of. induction issues as [|[[[inv ty] t1] t2] r IH]; simpl; [reflexivity|].
  rewrite Z.eqb_refl. simpl. rewrite IH. reflexivity.
Qed.

(** C4: a successful issuance (the chat client created the invite) for a
    registered channel appends exactly one link record, active, with
    [uses = 0], for that channel, and raises the channel's [total_joins] by
    exactly one; and for N issuances for the same channel whose store
    operations interleave in any order, the end state has N new link
    records of that kind and [total_joins] raised by N. *)
Theorem issuance_adds_one_link_and_one_join (cfg : config) (w : world) (cid uid : Z)
    (c : channel) (inv : string) (issues : list (string * string * Z * Z))
    (ops : list store_op) :
  find_channel cid (st_channels (w_store w)) = Some c ->
  w_create_invite w cid MemberLimit1 = Some inv ->
  Permutation ops (flat_map (issuance_ops cfg cid) issues) ->
  (let s' := w_store (snd (callback_channel cfg cid uid w)) in
   (exists l, st_links s' = st_links (w_store w) ++ [l] /\ lk_channel_id l = cid /\
              lk_is_active l = true /\ lk_uses l = 0 /\ lk_invite_link l = inv) /\
   (exists c', find_channel cid (st_channels s') = Some c' /\
               ch_total_joins c' = ch_total_joins c + 1)) /\
  (let s' := run_store_ops (w_store w) ops in
   (exists new, st_links s' = st_links (w_store w) ++ new /\
                length new = length issues /\
                Forall (fun l => lk_channel_id l = cid /\ lk_is_active l = true /\
                                 lk_uses l = 0) new) /\
   (exists c', find_channel cid (st_channels s') = Some c' /\
               ch_total_joins c' = ch_total_joins c + Z.of_nat (length issues))).
Proof.
  intros Hf Hc Hp. split.
  - unfold callback_channel, generate_invite_link, db_get_channel, try_except, bind,
      get_store, ret, emit, client_create_invite.
    cbn [fst snd w_store add_event]. rewrite Hf. cbn. rewrite Hc. cbn.
    split.
    + eexists. split; [reflexivity|]. repeat split.
    + change (find (channel_has_id cid) ?l) with (find_channel cid l).
      rewrite find_update_one_same by apply inc_total_joins_id. rewrite Hf.
      eexists. split; [reflexivity|]. simpl. lia.
  - split.
    + exists (inserted_links ops). split; [apply run_store_ops_links|].
      pose proof (inserted_links_perm _ _ Hp) as Hq.
      rewrite inserted_links_issuances in Hq. split.
      * rewrite (Permutation_length Hq), length_map. reflexivity.
      * apply List.Forall_forall. intros l Hl.
        apply (Permutation_in _ Hq), in_map_iff in Hl.
        destruct Hl as ([[[i ty] t1] t2] & <- & _). repeat split.
    + destruct (run_store_ops_find cid ops (w_store w) c Hf) as (c' & H1 & H2).
      exists c'. split; [exact H1|]. rewrite H2, (incs_of_perm _ _ _ Hp), incs_of_issuances.
      reflexivity.
Qed.

Lemma issuance_adds_one_link_and_one_join_witness :
  find_channel (-1001234567890) (st_channels (w_store (world_ok store_sample))) = Some chan_news /\
  w_create_invite (world_ok store_sample) (-1001234567890) MemberLimit1 = Some "https://t.me/+new" /\
  length (st_links (run_store_ops store_sample
     [OpInsertLink (saved_link cfg_default (-1001234567890) "x" "invite" 0 0);
      OpInsertLink (saved_link cfg_default (-1001234567890) "y" "request" 1 1);
      OpIncJoins (-1001234567890); OpIncJoins (-1001234567890)])) = 4%nat.
Proof.
  assert (Hp : Permutation
     [OpInsertLink (saved_link cfg_default (-1001234567890) "x" "invite" 0 0);
      OpInsertLink (saved_link cfg_default (-1001234567890) "y" "request" 1 1);
      OpIncJoins (-1001234567890); OpIncJoins (-1001234567890)]
     (flat_map (issuance_ops cfg_default (-1001234567890))
        [("x", "invite", 0, 0); ("y", "request", 1, 1)]%string)).
  { simpl. apply perm_skip. apply perm_swap. }
  destruct (issuance_adds_one_link_and_one_join cfg_default (world_ok store_sample)
              (-1001234567890) 42 chan_news "https://t.me/+new" _ _
              eq_refl eq_refl Hp) as [_ [(nw & Hl & Hn & _) _]].
  split; [reflexivity|]. split; [reflexivity|].
  change (w_store (world_ok store_sample)) with store_sample in Hl.
  rewrite Hl, length_app, Hn. reflexivity.
Defined.

(** C5 (evaluated on the code): [save_link] reads the clock twice and
    stores both dates cut to whole milliseconds, so the stored [expires_at]
    is [created_at + TTL] plus the whole milliseconds that separate the two
    reads. It equals [created_at + TTL] when both reads fall in the same
    millisecond; with reads at 00:00:00.000999 and 00:00:00.001000, the
    link expires one millisecond later than [created_at + TTL]. *)
Theorem save_link_expiry_uses_second_clock_read :
  (forall (cfg : config) (cid : Z) (inv ty : string) (w : world),
     exists l, st_links (w_store (snd (db_save_link cfg cid inv ty w))) =
                 st_links (w_store w) ++ [l] /\
               lk_created_at l = bson_date (w_time w (w_tick w)) /\
               lk_expires_at l = lk_created_at l + link_ttl cfg +
                 (bson_date (w_time w (S (w_tick w))) - bson_date (w_time w (w_tick w))) /\
               (bson_date (w_time w (S (w_tick w))) = bson_date (w_time w (w_tick w)) ->
                lk_expires_at l = lk_created_at l + link_ttl cfg)) /\
  (exists l, st_links (w_store (snd (db_save_link cfg_default (-1001234567890)
                                      "https://t.me/+new" "invite"
                                      (world_at store_sample 1767225600000999)))) =
               st_links store_sample ++ [l] /\
             lk_created_at l = 1767225600000000 /\
             lk_expires_at l = 1767225900001000 /\
             lk_expires_at l <> lk_created_at l + link_ttl cfg_default).
Proof.
  split.
  - intros cfg cid inv ty w. eexists. split; [reflexivity|].
    cbn -[bson_date link_ttl].
    assert (E : bson_date (w_time w (S (w_tick w)) + link_ttl cfg) =
                bson_date (w_time w (S (w_tick w))) + link_ttl cfg)
      by apply bson_date_add_ttl.
    rewrite E. split; [reflexivity|]. split; [lia|]. intros H. lia.
  - eexists. split; [reflexivity|]. vm_compute. repeat split; discriminate.
Qed.

(** C6: when the chat client fails to create the invite for the
    requested channel, issuance leaves the store exactly as it was (no
    link record, no counter change) and ends with the "Failed to generate
    invite link" message (bot must be admin with the invite permission).
    On the deep-link path the store is never changed as the repository
    stands (the decoder is missing); with a decoder in place, a failed
    invite for the decoded channel likewise leaves the store unchanged and
    ends with the same kind of message. *)
Theorem issuance_failure_leaves_store (cfg : config) (w : world) (cid uid : Z)
    (c : channel) :
  find_channel cid (st_channels (w_store w)) = Some c ->
  w_create_invite w cid MemberLimit1 = None ->
  w_store (snd (callback_channel cfg cid uid w)) = w_store w /\
  w_trace (snd (callback_channel cfg cid uid w)) =
    w_trace w ++ [EvAnswer MsgGeneratingLinkAnswer; EvCreateInvite cid MemberLimit1 uid;
                  EvEdit MsgFailedGenerate] /\
  (forall payload : string,
     w_store (snd (handle_deep_link cfg repo_decode_channel_id uid payload w)) = w_store w) /\
  (forall (dec : string -> option Z) (payload : string),
     let opts := if String.prefix "req_" payload then CreatesJoinRequest else MemberLimit1 in
     dec payload = Some cid -> cid <> 0 -> w_create_invite w cid opts = None ->
     w_store (snd (handle_deep_link cfg (Some dec) uid payload w)) = w_store w /\
     w_trace (snd (handle_deep_link cfg (Some dec) uid payload w)) =
       w_trace w ++ [EvDecode payload; EvReply MsgGenerating; EvCreateInvite cid opts uid;
                     EvEdit MsgFailedGenerate]).
Proof.
  intros Hf Hc. split; [|split; [|split]].
  - unfold callback_channel, generate_invite_link, db_get_channel, try_except, bind,
      get_store, ret, emit, client_create_invite.
    cbn [fst snd w_store add_event]. rewrite Hf. cbn. rewrite Hc. reflexivity.
  - unfold callback_channel, generate_invite_link, db_get_channel, try_except, bind,
      get_store, ret, emit, client_create_invite.
    cbn [fst snd w_store add_event]. rewrite Hf. cbn. rewrite Hc. cbn.
    rewrite <- !app_assoc. reflexivity.
  - intros payload. reflexivity.
  - intros dec payload opts Hd Hz Hc'.
    unfold handle_deep_link, lookup_method, db_get_channel, try_except, bind,
      get_store, ret, emit, client_create_invite.
    cbn [fst snd w_store w_trace add_event]. rewrite Hd. subst opts.
    destruct (String.prefix "req_" payload);
      (destruct cid as [|p|p]; [congruence| |];
       rewrite ?w_store_add_event; rewrite Hf;
       cbn [fst snd w_store w_trace add_event]; rewrite ?w_create_invite_add_event, Hc';
       cbn [fst snd w_store w_trace add_event];
       rewrite <- !app_assoc; split; reflexivity).
Qed.

Lemma issuance_failure_leaves_store_witness :
  find_channel (-1001234567890) (st_channels (w_store (world_refusing store_sample (-1001234567890))))
    = Some chan_news /\
  w_create_invite (world_refusing store_sample (-1001234567890)) (-1001234567890) MemberLimit1
    = None /\
  w_create_invite (world_refusing store_sample (-1001234567890)) (-1009876543210) MemberLimit1
    = Some "https://t.me/+new" /\
  w_store (snd (callback_channel cfg_default (-1001234567890) 42
                  (world_refusing store_sample (-1001234567890)))) = store_sample.
Proof.
  destruct (issuance_failure_leaves_store cfg_default
              (world_refusing store_sample (-1001234567890))
              (-1001234567890) 42 chan_news eq_refl eq_refl) as [H _].
  split; [reflexivity|]. split; [reflexivity|]. split; [reflexivity|exact H].
Defined.

(** C3 (counterexample): the channel [chan_off] has a record with
    [is_active = false]; a [channel_<id>] request for it still asks the
    chat client for an invite, saves a link record and raises the
    channel's [total_joins]. *)
Lemma callback_issues_for_inactive_channel :
  ch_is_active chan_off = false /\
  find_channel (-1009876543210) (st_channels store_sample) = Some chan_off /\
  In (EvCreateInvite (-1009876543210) MemberLimit1 42)
     (w_trace (snd (callback_channel cfg_default (-1009876543210) 42
                      (world_ok store_sample)))) /\
  length (st_links (w_store (snd (callback_channel cfg_default (-1009876543210) 42
                                    (world_ok store_sample))))) = 3%nat /\
  option_map ch_total_joins
    (find_channel (-1009876543210)
       (st_channels (w_store (snd (callback_channel cfg_default (-1009876543210) 42
                                     (world_ok store_sample)))))) = Some 8.
Proof.
  split; [reflexivity|]. split; [reflexivity|].
  split; [vm_compute; tauto|]. split; vm_compute; reflexivity.
Qed.

(** C3 (as the code behaves): no issuance path looks at [is_active].
    On the [channel_<id>] button path, with no record for the id the
    request is refused ("Channel not found!"), no invite is requested and
    the store is unchanged; with a record, whatever its [is_active], an
    invite is requested from the chat client. On the deep-link path, as
    the repository stands, every request ends with "An error occurred"
    ([db.decode_channel_id] is missing) before any lookup: no invite is
    requested and the store is unchanged. With a decoder in place, that
    path too would check only that a record exists ("Channel not found or
    has been removed." otherwise). *)
Theorem issuance_gated_only_on_channel_record (cfg : config) (w : world) (cid uid : Z) :
  (find_channel cid (st_channels (w_store w)) = None ->
     w_store (snd (callback_channel cfg cid uid w)) = w_store w /\
     w_trace (snd (callback_channel cfg cid uid w)) =
       w_trace w ++ [EvAnswer MsgChannelNotFoundAlert]) /\
  (forall c, find_channel cid (st_channels (w_store w)) = Some c ->
     exists rest, w_trace (snd (callback_channel cfg cid uid w)) =
       w_trace w ++ EvAnswer MsgGeneratingLinkAnswer :: EvCreateInvite cid MemberLimit1 uid
                    :: rest) /\
  (forall payload : string,
     w_store (snd (handle_deep_link cfg repo_decode_channel_id uid payload w)) = w_store w /\
     w_trace (snd (handle_deep_link cfg repo_decode_channel_id uid payload w)) =
       w_trace w ++ [EvReply (MsgErrorOccurred (AttributeError "Database" "decode_channel_id"))]) /\
  (forall (dec : string -> option Z) (payload : string),
     let opts := if String.prefix "req_" payload then CreatesJoinRequest else MemberLimit1 in
     dec payload = Some cid -> cid <> 0 ->
     (find_channel cid (st_channels (w_store w)) = None ->
        w_store (snd (handle_deep_link cfg (Some dec) uid payload w)) = w_store w /\
        w_trace (snd (handle_deep_link cfg (Some dec) uid payload w)) =
          w_trace w ++ [EvDecode payload; EvReply MsgChannelNotFound]) /\
     (forall c, find_channel cid (st_channels (w_store w)) = Some c ->
        exists rest, w_trace (snd (handle_deep_link cfg (Some dec) uid payload w)) =
          w_trace w ++ EvDecode payload :: EvReply MsgGenerating :: EvCreateInvite cid opts uid
                       :: rest)).
Proof.
  split; [|split; [|split]].
  - unfold callback_channel, generate_invite_link, db_get_channel, try_except, bind,
      get_store, ret, emit, client_create_invite.
    intros Hf. cbn [fst snd w_store add_event]. rewrite Hf. split; reflexivity.
  - unfold callback_channel, generate_invite_link, db_get_channel, try_except, bind,
      get_store, ret, emit, client_create_invite.
    intros c Hf. cbn [fst snd w_store add_event]. rewrite Hf. cbn.
    destruct (w_create_invite w cid MemberLimit1); cbn;
      eexists; rewrite <- ?app_assoc; reflexivity.
  - intros payload. split; reflexivity.
  - intros dec payload opts Hd Hz.
    unfold handle_deep_link, lookup_method, db_get_channel, try_except, bind,
      get_store, ret, emit, client_create_invite.
    cbn [fst snd w_store w_trace add_event]. rewrite Hd. subst opts.
    split.
    + intros Hf.
      destruct (String.prefix "req_" payload);
        (destruct cid as [|p|p]; [congruence| |];
         rewrite ?w_store_add_event; rewrite Hf;
         cbn [fst snd w_store w_trace add_event];
         rewrite <- !app_assoc; split; reflexivity).
    + intros c Hf.
      destruct (String.prefix "req_" payload);
        (destruct cid as [|p|p]; [congruence| |];
         rewrite ?w_store_add_event; rewrite Hf;
         cbn [fst snd w_store w_trace add_event]; rewrite ?w_create_invite_add_event;
         match goal with
         | |- context [w_create_invite w ?i ?o] => destruct (w_create_invite w i o)
         end; cbn; eexists; rewrite <- ?app_assoc; reflexivity).
Qed.

Lemma issuance_gated_only_on_channel_record_witness :
  find_channel 5 (st_channels store_sample) = None /\
  w_store (snd (callback_channel cfg_default 5 42 (world_ok store_sample))) = store_sample /\
  find_channel (-1009876543210) (st_channels store_sample) = Some chan_off /\
  exists rest, w_trace (snd (callback_channel cfg_default (-1009876543210) 42
                               (world_ok store_sample))) =
    [EvAnswer MsgGeneratingLinkAnswer; EvCreateInvite (-1009876543210) MemberLimit1 42]
      ++ rest.
Proof.
  destruct (issuance_gated_only_on_channel_record cfg_default (world_ok store_sample) 5 42)
    as [H1 _].
  destruct (issuance_gated_only_on_channel_record cfg_default (world_ok store_sample)
              (-1009876543210) 42) as [_ [H2 _]].
  split; [reflexivity|]. split; [apply (proj1 (H1 eq_refl))|].
  split; [reflexivity|].
  destruct (H2 chan_off eq_refl) as [rest Hr]. exists rest. exact Hr.
Defined.

(** ** User records *)

(** The update document of [add_user] names [joined_at] both under
    [$set] and under [$setOnInsert]. *)
Lemma add_user_update_paths (uid : Z) (un fn : option string) (t1 t2 t3 : Z) :
  update_paths
    (mkUpdate
       [("user_id", VInt uid); ("username", opt_str un); ("first_name", opt_str fn);
        ("joined_at", VDate t1); ("last_active", VDate t2); ("total_requests", VInt 0);
        ("is_banned", VBool false)]%string
       [("joined_at"%string, VDate t3)] []) =
  ["user_id"; "username"; "first_name"; "joined_at"; "last_active"; "total_requests";
   "is_banned"; "joined_at"]%string.
Proof. reflexivity. Qed.

(** C8 (evaluated on the code): MongoDB rejects the update of [add_user]
    (path conflict on [joined_at]); [add_user] swallows the error and
    returns [False] with the store unchanged, for every user and every
    store. So the first interaction of a user creates no record: after
    [/start] from user 42 on an empty users collection, the collection is
    still empty ([update_last_active] does not upsert). *)
Theorem add_user_never_creates_record :
  (forall (w : world) (uid : Z) (un fn : option string),
     fst (db_add_user uid un fn w) = inr false /\
     w_store (snd (db_add_user uid un fn w)) = w_store w) /\
  st_users (w_store (snd (start_command_users 42 (Some "alice"%string) (Some "Alice"%string)
                            (world_ok (mkStore [] [] []))))) = [].
Proof.
  split.
  - intros w uid un fn.
    unfold db_add_user, users_update_one, try_except, bind, utcnow, ret.
    cbn [fst snd]. rewrite add_user_update_paths.
    assert (Hc : bool_decide (NoDup ["user_id"; "username"; "first_name"; "joined_at";
                   "last_active"; "total_requests"; "is_banned"; "joined_at"]%string)
                 = false) by reflexivity.
    rewrite Hc. split; reflexivity.
  - reflexivity.
Qed.

(** ** The identifier codec *)

(** C1 (evaluated on the code): class [Database] has no [encode_channel_id]
    and no [decode_channel_id]. The [/addchannel] handler therefore never
    shows a deep link (it ends on "Failed to add channel" or "Channel
    already exists"), and the deep-link handler answers every payload with
    "An error occurred: AttributeError" and touches nothing else. *)
Theorem codec_methods_absent :
  ~ In "encode_channel_id"%string Database_attrs /\
  ~ In "decode_channel_id"%string Database_attrs /\
  (forall (cfg : config) (w : world) (cid : Z),
     exists evs, w_trace (snd (add_channel_cmd cfg repo_encode_channel_id cid w)) =
                   w_trace w ++ evs /\
                 forall nl rl, ~ In (EvEdit (MsgChannelAdded nl rl)) evs) /\
  (forall (cfg : config) (w : world) (uid : Z) (payload : string),
     snd (handle_deep_link cfg repo_decode_channel_id uid payload w) =
       add_event (EvReply (MsgErrorOccurred (AttributeError "Database" "decode_channel_id"))) w).
Proof.
  split; [vm_compute; intuition discriminate|].
  split; [vm_compute; intuition discriminate|].
  split; [|reflexivity].
  intros cfg w cid.
  unfold add_channel_cmd, lookup_method, repo_encode_channel_id, db_add_channel,
    client_get_chat, client_export_invite, try_except, bind, ret, emit, raise,
    get_store, put_store, utcnow.
  cbn.
  destruct (w_get_chat w cid) as [title|]; cbn.
  - destruct (w_export_invite w cid); cbn;
      (destruct (existsb (channel_has_id cid) (st_channels (w_store w))); cbn;
       eexists; (split; [rewrite <- ?app_assoc; reflexivity|]);
       intros nl rl H; simpl in H; intuition discriminate).
  - eexists. split; [rewrite <- ?app_assoc; reflexivity|].
    intros nl rl H; simpl in H; intuition discriminate.
Qed.

Lemma prefix_req (s : string) : String.prefix "req_" (String.append "req_" s) = true.
Proof. destruct s; reflexivity. Qed.

(** C2 (evaluated on the code): the deep-link handler hands the whole
    payload, [req_] prefix included, to [db.decode_channel_id]; it only
    tests the prefix to pick the invite options. *)
Theorem deep_link_decodes_unstripped_payload :
  forall (cfg : config) (dec : string -> option Z) (uid : Z) (s : string) (w : world),
  exists rest,
    w_trace (snd (handle_deep_link cfg (Some dec) uid (String.append "req_" s) w)) =
      w_trace w ++ EvDecode (String.append "req_" s) :: rest.
Proof.
  intros cfg dec uid s w.
  unfold handle_deep_link, lookup_method, db_get_channel, try_except, bind, ret, emit,
    get_store, client_create_invite.
  cbn [fst snd w_store w_trace add_event]. rewrite prefix_req.
  destruct (dec (String.append "req_" s)) as [[|p|p]|]; cbn;
    try (eexists; rewrite <- ?app_assoc; reflexivity).
  - destruct (find_channel (Z.pos p) (st_channels (w_store w))); cbn;
      [destruct (w_create_invite w (Z.pos p) CreatesJoinRequest); cbn|];
      eexists; rewrite <- ?app_assoc; reflexivity.
  - destruct (find_channel (Z.neg p) (st_channels (w_store w))); cbn;
      [destruct (w_create_invite w (Z.neg p) CreatesJoinRequest); cbn|];
      eexists; rewrite <- ?app_assoc; reflexivity.
Qed.

(** * Further properties of the code *)

(** ** Channel registry *)

(** [add_channel] on an id already registered hits the unique index: it
    returns [False] and the store is unchanged. *)
Theorem add_channel_duplicate_rejected (w : world) (cid : Z) (name : string)
    (inv : option string) :
  In cid (map ch_channel_id (st_channels (w_store w))) ->
  fst (db_add_channel cid name inv w) = inr false /\
  w_store (snd (db_add_channel cid name inv w)) = w_store w.
Proof.
  intros Hin. unfold db_add_channel, try_except, bind, utcnow, get_store.
  cbn [fst snd w_store tick].
  assert (Hex : existsb (channel_has_id cid) (st_channels (w_store w)) = true).
  { apply existsb_exists. apply in_map_iff in Hin as (c & Hc & Hc').
    exists c. split; [exact Hc'|]. unfold channel_has_id. rewrite Hc. apply Z.eqb_refl. }
  rewrite Hex. split; reflexivity.
Qed.

Lemma add_channel_duplicate_rejected_witness :
  In (-1001234567890) (map ch_channel_id (st_channels store_sample)) /\
  w_store (snd (db_add_channel (-1001234567890) "Other" None (world_ok store_sample)))
    = store_sample.
Proof.
  assert (Hin : In (-1001234567890) (map ch_channel_id (st_channels store_sample)))
    by (simpl; tauto).
  split; [exact Hin|].
  exact (proj2 (add_channel_duplicate_rejected (world_ok store_sample) _ "Other" None Hin)).
Defined.

Lemma existsb_has_id_false (cid : Z) (l : list channel) :
  existsb (channel_has_id cid) l = false -> ~ In cid (map ch_channel_id l).
Proof.
  intros He Hin. apply in_map_iff in Hin as (c & Hc & Hc').
  assert (existsb (channel_has_id cid) l = true).
  { apply existsb_exists. exists c. split; [exact Hc'|].
    unfold channel_has_id. rewrite Hc. apply Z.eqb_refl. }
  congruence.
Qed.

Lemma db_add_channel_fresh (w : world) (cid : Z) (name : string)
    (inv : option string) :
  ~ In cid (map ch_channel_id (st_channels (w_store w))) ->
  fst (db_add_channel cid name inv w) = inr true /\
  w_store (snd (db_add_channel cid name inv w)) =
    mkStore (st_channels (w_store w) ++
               [mkChannel cid name inv (bson_date (w_time w (w_tick w))) 0 true false])
            (st_users (w_store w)) (st_links (w_store w)).
Proof.
  intros Hn. unfold db_add_channel, try_except, bind, utcnow, get_store, put_store, ret.
  cbn [fst snd w_store tick set_store].
  destruct (existsb (channel_has_id cid) (st_channels (w_store w))) eqn:Hex.
  - exfalso. apply Hn. apply existsb_exists in Hex as (c & Hc & Hc').
    unfold channel_has_id in Hc'. apply Z.eqb_eq in Hc'.
    apply in_map_iff. exists c. split; assumption.
  - split; reflexivity.
Qed.

(** [add_channel] on an id not yet registered appends one record, active,
    with [total_joins = 0], [auto_approve = False] and the clock read cut
    to whole milliseconds as [added_at], returns [True], and leaves users
    and links untouched. *)
Theorem add_channel_fresh_appends (w : world) (cid : Z) (name : string)
    (inv : option string) :
  ~ In cid (map ch_channel_id (st_channels (w_store w))) ->
  fst (db_add_channel cid name inv w) = inr true /\
  w_store (snd (db_add_channel cid name inv w)) =
    mkStore (st_channels (w_store w) ++
               [mkChannel cid name inv (bson_date (w_time w (w_tick w))) 0 true false])
            (st_users (w_store w)) (st_links (w_store w)).
Proof. exact (db_add_channel_fresh w cid name inv). Qed.

Lemma add_channel_fresh_appends_witness :
  ~ In 42 (map ch_channel_id (st_channels store_sample)) /\
  fst (db_add_channel 42 "New" None (world_ok store_sample)) = inr true.
Proof.
  assert (Hn : ~ In 42 (map ch_channel_id (st_channels store_sample)))
    by (simpl; lia).
  split; [exact Hn|].
  exact (proj1 (add_channel_fresh_appends (world_ok store_sample) 42 "New" None Hn)).
Defined.

Lemma existsb_has_id_true (cid : Z) (l : list channel) :
  existsb (channel_has_id cid) l = true -> In cid (map ch_channel_id l).
Proof.
  intros He. apply existsb_exists in He as (c & Hc & Hc').
  unfold channel_has_id in Hc'. apply Z.eqb_eq in Hc'.
  apply in_map_iff. exists c. split; assumption.
Qed.



(** Whatever the id, [add_channel] keeps the channel ids of the store
    pairwise distinct (the unique index): from a store with distinct ids it
    leads to a store with distinct ids. *)
Theorem add_channel_keeps_ids_unique (w : world) (cid : Z) (name : string)
    (inv : option string) :
  List.NoDup (map ch_channel_id (st_channels (w_store w))) ->
  List.NoDup (map ch_channel_id
                (st_channels (w_store (snd (db_add_channel cid name inv w))))).
Proof.
  intros Hnd. unfold db_add_channel, try_except, bind, utcnow, get_store, put_store, ret.
  cbn [fst snd w_store tick set_store].
  destruct (existsb (channel_has_id cid) (st_channels (w_store w))) eqn:Hex.
  - exact Hnd.
  - cbn [fst snd w_store set_store st_channels]. rewrite List.map_app. cbn [map ch_channel_id].
    apply List.NoDup_app; [exact Hnd| |].
    + constructor; [simpl; tauto|constructor].
    + intros x Hx Hx'. simpl in Hx'. destruct Hx' as [<-|[]].
      exact (existsb_has_id_false _ _ Hex Hx).
Qed.

Lemma add_channel_keeps_ids_unique_witness :
  List.NoDup (map ch_channel_id (st_channels (w_store (world_ok store_sample)))) /\
  List.NoDup (map ch_channel_id (st_channels
    (w_store (snd (db_add_channel 42 "New" None (world_ok store_sample)))))).
Proof.
  assert (Hnd : List.NoDup (map ch_channel_id (st_channels (w_store (world_ok store_sample))))).
  { simpl. constructor; [simpl; lia|]. constructor; [simpl; tauto|constructor]. }
  split; [exact Hnd|].
  exact (add_channel_keeps_ids_unique (world_ok store_sample) 42 "New" None Hnd).
Defined.

Lemma delete_one_channel_app_fresh (cid : Z) (l : list channel) (c : channel) :
  ~ In cid (map ch_channel_id l) -> ch_channel_id c = cid ->
  delete_one_channel cid (l ++ [c]) = (l, 1).
Proof.
  intros Hn Hc. induction l as [|c' l IH]; simpl in *.
  - unfold channel_has_id. rewrite Hc, Z.eqb_refl. reflexivity.
  - unfold channel_has_id at 1. destruct (Z.eqb_spec (ch_channel_id c') cid).
    + exfalso. apply Hn. left. assumption.
    + rewrite IH; [reflexivity|]. intros Hin. apply Hn. right. exact Hin.
Qed.

(** Adding a channel under a fresh id and then removing that id returns
    [True] and gives back the channel list as it was, with the users
    untouched and the links of that id deleted. *)
Theorem add_then_remove_channel (w : world) (cid : Z) (name : string)
    (inv : option string) :
  ~ In cid (map ch_channel_id (st_channels (w_store w))) ->
  let w1 := snd (db_add_channel cid name inv w) in
  fst (db_remove_channel cid w1) = inr true /\
  w_store (snd (db_remove_channel cid w1)) =
    mkStore (st_channels (w_store w)) (st_users (w_store w))
            (delete_links_of cid (st_links (w_store w))).
Proof.
  intros Hn w1.
  pose proof (db_add_channel_fresh w cid name inv Hn) as [_ Hs].
  subst w1. revert Hs. generalize (snd (db_add_channel cid name inv w)) as w1.
  intros w1 Hs.
  unfold db_remove_channel, try_except, bind, get_store, put_store, ret.
  rewrite Hs. cbn [st_channels st_users st_links].
  rewrite (delete_one_channel_app_fresh cid _
    (mkChannel cid name inv (bson_date (w_time w (w_tick w))) 0 true false) Hn eq_refl).
  cbn. split; reflexivity.
Qed.

Lemma add_then_remove_channel_witness :
  ~ In 42 (map ch_channel_id (st_channels (w_store (world_ok store_sample)))) /\
  fst (db_remove_channel 42
         (snd (db_add_channel 42 "New" None (world_ok store_sample)))) = inr true.
Proof.
  assert (Hn : ~ In 42 (map ch_channel_id (st_channels (w_store (world_ok store_sample)))))
    by (simpl; lia).
  split; [exact Hn|].
  exact (proj1 (add_then_remove_channel (world_ok store_sample) 42 "New" None Hn)).
Defined.

Lemma set_auto_approve_one_eq (cid : Z) (en : bool) (l : list channel) :
  set_auto_approve_one cid en l =
    (update_one_channel cid (set_auto_approve en) l,
     match find_channel cid l with
     | Some c => if Bool.eqb (ch_auto_approve c) en then 0 else 1
     | None => 0
     end).
Proof.
  unfold find_channel. induction l as [|c l IH]; simpl; [reflexivity|].
  destruct (channel_has_id cid c); [reflexivity|]. rewrite IH. reflexivity.
Qed.

Lemma update_one_channel_ids (cid : Z) (f : channel -> channel) (l : list channel) :
  (forall c, ch_channel_id (f c) = ch_channel_id c) ->
  map ch_channel_id (update_one_channel cid f l) = map ch_channel_id l.
Proof.
  intros Hf. induction l as [|c l IH]; simpl; [reflexivity|].
  destruct (channel_has_id cid c); simpl; rewrite ?Hf, ?IH; reflexivity.
Qed.

Lemma update_one_channel_absent (cid : Z) (f : channel -> channel) (l : list channel) :
  find_channel cid l = None -> update_one_channel cid f l = l.
Proof.
  unfold find_channel. induction l as [|c l IH]; simpl; [reflexivity|].
  destruct (channel_has_id cid c); [discriminate|]. intros H. rewrite IH; auto.
Qed.

(** [toggle_auto_approve]: when no record has the id, it returns [False]
    and changes nothing. Otherwise it returns [True] exactly when the flag
    of the first record with that id was not already [enabled]; afterwards
    that record has [auto_approve = enabled], the ids of the collection
    are the same, and the record found under any other id is unchanged. *)
Theorem toggle_auto_approve_effect (w : world) (cid : Z) (en : bool) :
  let r := db_toggle_auto_approve cid en w in
  match find_channel cid (st_channels (w_store w)) with
  | None => fst r = inr false /\ w_store (snd r) = w_store w
  | Some c =>
      fst r = inr (negb (Bool.eqb (ch_auto_approve c) en)) /\
      find_channel cid (st_channels (w_store (snd r))) = Some (set_auto_approve en c) /\
      map ch_channel_id (st_channels (w_store (snd r))) =
        map ch_channel_id (st_channels (w_store w)) /\
      (forall d, d <> cid ->
         find_channel d (st_channels (w_store (snd r))) =
           find_channel d (st_channels (w_store w)))
  end.
Proof.
  intros r. subst r.
  unfold db_toggle_auto_approve, try_except, bind, get_store, put_store, ret.
  rewrite set_auto_approve_one_eq. cbn [fst snd w_store set_store st_channels].
  destruct (find_channel cid (st_channels (w_store w))) as [c|] eqn:Hf.
  - repeat split.
    + destruct (Bool.eqb (ch_auto_approve c) en); reflexivity.
    + rewrite find_update_one_same by reflexivity. rewrite Hf. reflexivity.
    + apply update_one_channel_ids. reflexivity.
    + intros d Hd. apply find_update_one_other; [congruence|reflexivity].
  - rewrite update_one_channel_absent by exact Hf. split; [reflexivity|].
    destruct (w_store w); reflexivity.
Qed.

Lemma is_banned_as_insert (b : bool) (d : gmap string value) :
  is_banned_as b (<[ "is_banned"%string := VBool b ]> d) = true.
Proof. unfold is_banned_as. rewrite lookup_insert_eq. apply Bool.eqb_reflx. Qed.

Lemma user_has_id_insert_other (uid : Z) (k : string) (v : value) (d : gmap string value) :
  k <> "user_id"%string -> user_has_id uid (<[ k := v ]> d) = user_has_id uid d.
Proof. intros Hk. unfold user_has_id. rewrite lookup_insert_ne by congruence. reflexivity. Qed.

Lemma set_banned_one_eq (uid : Z) (b : bool) (l : list (gmap string value)) :
  match List.find (user_has_id uid) l with
  | None => set_banned_one uid b l = (l, 0)
  | Some d =>
      List.find (user_has_id uid) (fst (set_banned_one uid b l)) =
        Some (<[ "is_banned"%string := VBool b ]> d) /\
      snd (set_banned_one uid b l) = (if is_banned_as b d then 0 else 1) /\
      length (fst (set_banned_one uid b l)) = length l
  end.
Proof.
  induction l as [|d l IH]; simpl; [reflexivity|].
  destruct (user_has_id uid d) eqn:Hd.
  - simpl. rewrite user_has_id_insert_other by discriminate. rewrite Hd.
    repeat split; reflexivity.
  - destruct (List.find (user_has_id uid) l) as [d'|] eqn:Hf.
    + destruct (set_banned_one uid b l) as [r n]. simpl in *.
      rewrite Hd. destruct IH as (IH1 & IH2 & IH3). repeat split; auto.
    + rewrite IH. reflexivity.
Qed.

(** [ban_user] never creates a user record: for an unknown id it returns
    [False] and changes nothing. For a known id it returns [True] exactly
    when the first record with that id did not already hold
    [is_banned = banned]; afterwards that record holds it, the number of
    user records is the same, and an identical second call returns
    [False]. *)
Theorem ban_user_effect (w : world) (uid : Z) (banned : bool) :
  let r := db_ban_user uid banned w in
  match List.find (user_has_id uid) (st_users (w_store w)) with
  | None => fst r = inr false /\ w_store (snd r) = w_store w
  | Some d =>
      fst r = inr (negb (is_banned_as banned d)) /\
      List.find (user_has_id uid) (st_users (w_store (snd r))) =
        Some (<[ "is_banned"%string := VBool banned ]> d) /\
      length (st_users (w_store (snd r))) = length (st_users (w_store w)) /\
      fst (db_ban_user uid banned (snd r)) = inr false
  end.
Proof.
  intros r. subst r.
  pose proof (set_banned_one_eq uid banned (st_users (w_store w))) as Hs.
  unfold db_ban_user, try_except, bind, get_store, put_store, ret.
  destruct (List.find (user_has_id uid) (st_users (w_store w))) as [d|] eqn:Hf.
  - destruct (set_banned_one uid banned (st_users (w_store w))) as [us n] eqn:E.
    cbn [fst snd] in Hs. destruct Hs as (H1 & H2 & H3). subst n.
    cbn [fst snd w_store set_store st_users].
    pose proof (set_banned_one_eq uid banned us) as Hs2. rewrite H1 in Hs2.
    destruct (set_banned_one uid banned us) as [us' n'] eqn:E2.
    cbn [fst snd] in Hs2. destruct Hs2 as (_ & H2' & _).
    rewrite is_banned_as_insert in H2'. subst n'.
    repeat split; try assumption.
    destruct (is_banned_as banned d); reflexivity.
  - rewrite Hs. cbn. split; [reflexivity|]. destruct (w_store w); reflexivity.
Qed.

Lemma update_first_user_hit (uid : Z) (f : gmap string value -> option (gmap string value))
    (l : list (gmap string value)) (d : gmap string value) :
  List.find (user_has_id uid) l = Some d ->
  match f d with
  | Some d' => user_has_id uid d' = true ->
      exists l', update_first_user uid f l = Some (true, l') /\
                 List.find (user_has_id uid) l' = Some d' /\ length l' = length l
  | None => update_first_user uid f l = None
  end.
Proof.
  induction l as [|d0 l IH]; simpl; [discriminate|].
  destruct (user_has_id uid d0) eqn:H0.
  - intros [= <-]. destruct (f d0) as [d'|]; [|reflexivity].
    intros Hd'. exists (d' :: l). simpl. rewrite Hd'. auto.
  - intros Hf. specialize (IH Hf). destruct (f d) as [d'|].
    + intros Hd'. destruct (IH Hd') as (l' & E & Hl' & Hlen). rewrite E.
      exists (d0 :: l'). simpl. rewrite H0. auto.
    + rewrite IH. reflexivity.
Qed.

Lemma update_first_user_miss (uid : Z) (f : gmap string value -> option (gmap string value))
    (l : list (gmap string value)) :
  List.find (user_has_id uid) l = None -> update_first_user uid f l = Some (false, l).
Proof.
  induction l as [|d0 l IH]; simpl; [reflexivity|].
  destruct (user_has_id uid d0); [discriminate|]. intros H. rewrite IH; auto.
Qed.

Lemma last_active_paths_nodup :
  bool_decide (NoDup ["last_active"; "total_requests"]%string) = true.
Proof. reflexivity. Qed.

(** [update_last_active] never creates a user record (no upsert): for an
    unknown id it changes nothing. On the first record with the id it sets
    [last_active] to the clock read cut to whole milliseconds and adds 1
    to [total_requests] (a missing
    counter becomes 1), leaving every other field and the number of
    records as they were; a non-numeric counter makes MongoDB raise and
    nothing is written. *)
Theorem update_last_active_effect (w : world) (uid : Z) :
  let r := db_update_last_active uid w in
  let t := bson_date (w_time w (w_tick w)) in
  match List.find (user_has_id uid) (st_users (w_store w)) with
  | None => fst r = inr tt /\ w_store (snd r) = w_store w
  | Some d =>
      match d !! "total_requests"%string with
      | Some (VInt n) =>
          fst r = inr tt /\
          List.find (user_has_id uid) (st_users (w_store (snd r))) =
            Some (<[ "total_requests"%string := VInt (n + 1) ]>
                    (<[ "last_active"%string := VDate t ]> d)) /\
          length (st_users (w_store (snd r))) = length (st_users (w_store w))
      | None =>
          fst r = inr tt /\
          List.find (user_has_id uid) (st_users (w_store (snd r))) =
            Some (<[ "total_requests"%string := VInt 1 ]>
                    (<[ "last_active"%string := VDate t ]> d)) /\
          length (st_users (w_store (snd r))) = length (st_users (w_store w))
      | Some _ => (exists e, fst r = inl e) /\ w_store (snd r) = w_store w
      end
  end.
Proof.
  intros r t. subst r t.
  unfold db_update_last_active, users_update_one, bind, utcnow, get_store, put_store, ret, raise.
  cbn [update_paths up_set up_set_on_insert up_inc map fst app].
  rewrite last_active_paths_nodup. cbn [negb fst snd w_store tick set_store].
  set (t := bson_date (w_time w (w_tick w))).
  set (f := fun d => apply_inc [("total_requests"%string, 1)]
                        (apply_set [("last_active"%string, VDate t)] d)).
  destruct (List.find (user_has_id uid) (st_users (w_store w))) as [d|] eqn:Hf.
  - pose proof (update_first_user_hit uid f _ d Hf) as Hh.
    assert (Hid : forall v d', user_has_id uid
              (<[ "total_requests"%string := v ]> (<[ "last_active"%string := VDate t ]> d'))
              = user_has_id uid d').
    { intros v d'. rewrite !user_has_id_insert_other by discriminate. reflexivity. }
    assert (Hu : user_has_id uid d = true) by (apply find_some in Hf; tauto).
    unfold f, apply_set in Hh. cbn [apply_inc foldl fst snd] in Hh.
    rewrite lookup_insert_ne in Hh by discriminate.
    unfold f, apply_set. cbn [apply_inc foldl fst snd].
    destruct (d !! "total_requests"%string) as [v|] eqn:Hv.
    + destruct v as [n| | | |];
        try (rewrite Hh; split; [eexists; reflexivity|]; reflexivity).
      rewrite Hid in Hh. destruct (Hh Hu) as (l' & -> & Hl' & Hlen).
      split; [reflexivity|]. split; [exact Hl'|exact Hlen].
    + rewrite Hid in Hh. destruct (Hh Hu) as (l' & -> & Hl' & Hlen).
      split; [reflexivity|]. split; [exact Hl'|exact Hlen].
  - rewrite update_first_user_miss by exact Hf. cbn [fst snd w_store tick].
    split; reflexivity.
Qed.

(** ** Links *)

(** [get_active_link] returns the first link record of the channel that is
    active and expires strictly after the clock read it makes; it returns
    [None] exactly when every link record of the channel is inactive or
    expired at that time. *)
Theorem get_active_link_first_valid (w : world) (cid : Z) :
  let now := w_time w (w_tick w) in
  let ls := st_links (w_store w) in
  match fst (db_get_active_link cid w) with
  | inr (Some k) =>
      lk_channel_id k = cid /\ lk_is_active k = true /\ now < lk_expires_at k /\
      exists pre post, ls = pre ++ k :: post /\
        Forall (fun k' => lk_channel_id k' <> cid \/ link_valid_at now k' = false) pre
  | inr None =>
      forall k, In k ls -> lk_channel_id k = cid ->
        lk_is_active k = false \/ lk_expires_at k <= now
  | inl _ => False
  end.
Proof.
  intros now ls. subst now ls.
  unfold db_get_active_link, bind, utcnow, get_store, ret. cbn [fst snd w_store tick].
  set (now := w_time w (w_tick w)).
  set (p := fun k => Z.eqb (lk_channel_id k) cid && link_valid_at now k).
  induction (st_links (w_store w)) as [|k ls IH]; simpl.
  - intros k []. 
  - destruct (p k) eqn:Hp.
    + unfold p, link_valid_at in Hp.
      apply andb_prop in Hp as [H1 H2]. apply andb_prop in H2 as [H2 H3].
      apply Z.eqb_eq in H1. apply Z.ltb_lt in H3.
      split; [exact H1|]. split; [exact H2|]. split; [exact H3|].
      exists [], ls. split; [reflexivity|constructor].
    + assert (Hk : lk_channel_id k <> cid \/ link_valid_at now k = false).
      { unfold p in Hp. destruct (Z.eqb_spec (lk_channel_id k) cid); [right|left; assumption].
        exact Hp. }
      destruct (find p ls) as [k'|] eqn:Hf.
      * destruct IH as (H1 & H2 & H3 & pre & post & -> & Hpre).
        split; [exact H1|]. split; [exact H2|]. split; [exact H3|].
        exists (k :: pre), post. split; [reflexivity|constructor; assumption].
      * intros k0 [<-|Hin] Hc.
        -- destruct Hk as [Hk|Hk]; [contradiction|].
           unfold link_valid_at in Hk. apply andb_false_iff in Hk as [Hk|Hk]; [left; exact Hk|].
           right. apply Z.ltb_ge. exact Hk.
        -- exact (IH k0 Hin Hc).
Qed.

Lemma find_filter_keep {A} (p q : A -> bool) (l : list A) :
  (forall x, p x = true -> q x = true) ->
  List.find p (List.filter q l) = List.find p l.
Proof.
  intros Hpq. induction l as [|x l IH]; simpl; [reflexivity|].
  destruct (q x) eqn:Hq; simpl.
  - destruct (p x); [reflexivity|exact IH].
  - destruct (p x) eqn:Hp; [rewrite (Hpq x Hp) in Hq; discriminate|exact IH].
Qed.

(** The hourly sweep never hides a link from [get_active_link]: with a
    clock that does not go backwards, the link [get_active_link] returns
    right after a sweep is the one it would have returned at the same
    clock read without the sweep. *)
Theorem cleanup_keeps_active_link (w : world) (cid : Z) :
  w_time w (w_tick w) <= w_time w (S (w_tick w)) ->
  fst (db_get_active_link cid (snd (cleanup_pass w))) =
    inr (List.find (fun k => Z.eqb (lk_channel_id k) cid &&
                             link_valid_at (w_time w (S (w_tick w))) k)
           (st_links (w_store w))).
Proof.
  intros Hmono.
  unfold cleanup_pass, db_cleanup_expired_links, db_get_active_link, try_except, bind,
    utcnow, get_store, put_store, ret.
  cbn [fst snd w_store w_tick w_time tick set_store st_links].
  f_equal. unfold delete_links_expired_before. apply find_filter_keep.
  intros k Hk. apply andb_prop in Hk as [_ Hk]. unfold link_valid_at in Hk.
  apply andb_prop in Hk as [_ Hk]. apply Z.ltb_lt in Hk.
  apply negb_true_iff, Z.ltb_ge. pose proof (bson_date_le (w_time w (w_tick w))). lia.
Qed.

Lemma cleanup_keeps_active_link_witness :
  w_time (world_ok store_sample) (w_tick (world_ok store_sample)) <=
    w_time (world_ok store_sample) (S (w_tick (world_ok store_sample))) /\
  fst (db_get_active_link (-1001234567890) (snd (cleanup_pass (world_ok store_sample)))) =
    inr None.
Proof.
  assert (Hm : w_time (world_ok store_sample) (w_tick (world_ok store_sample)) <=
               w_time (world_ok store_sample) (S (w_tick (world_ok store_sample))))
    by (cbn; unfold clock_us; lia).
  split; [exact Hm|].
  rewrite (cleanup_keeps_active_link (world_ok store_sample) (-1001234567890) Hm).
  reflexivity.
Defined.


Lemma update_one_link_found (p : link -> bool) (l : list link) (k : link) :
  List.find p l = Some k ->
  (forall k', p (inc_uses k') = p k') ->
  List.find p (update_one_link p inc_uses l) = Some (inc_uses k) /\
  fold_right (fun k' acc => lk_uses k' + acc) 0 (update_one_link p inc_uses l) =
    fold_right (fun k' acc => lk_uses k' + acc) 0 l + 1 /\
  Forall2 (fun a b => b = a \/ b = inc_uses a) l (update_one_link p inc_uses l).
Proof.
  intros Hf Hp. induction l as [|k0 l IH]; simpl in *; [discriminate|].
  destruct (p k0) eqn:H0.
  - injection Hf as <-. simpl. rewrite Hp, H0. repeat split.
    + cbn. lia.
    + constructor; [right; reflexivity|]. clear. induction l; constructor; auto.
  - destruct (IH Hf) as (H1 & H2 & H3). simpl. rewrite H0. repeat split.
    + exact H1.
    + rewrite H2. lia.
    + constructor; [left; reflexivity|exact H3].
Qed.

Lemma update_one_link_absent (p : link -> bool) (f : link -> link) (l : list link) :
  List.find p l = None -> update_one_link p f l = l.
Proof.
  induction l as [|k l IH]; simpl; [reflexivity|].
  destruct (p k); [discriminate|]. intros H. rewrite IH; auto.
Qed.

(** [increment_link_uses] changes only the [uses] counter of the first
    link record with that invite string: for an unknown string the store is
    unchanged; otherwise the channels and users are unchanged, every link
    record is kept in place, the first matching one has its [uses] raised
    by one, and the uses summed over all link records rise by exactly 1. *)
Theorem increment_link_uses_effect (w : world) (inv : string) :
  let p := fun k => String.eqb (lk_invite_link k) inv in
  let s := w_store w in
  let s' := w_store (snd (db_increment_link_uses inv w)) in
  match List.find p (st_links s) with
  | None => s' = s
  | Some k =>
      st_channels s' = st_channels s /\ st_users s' = st_users s /\
      List.find p (st_links s') = Some (inc_uses k) /\
      Forall2 (fun a b => b = a \/ b = inc_uses a) (st_links s) (st_links s') /\
      fold_right (fun k' acc => lk_uses k' + acc) 0 (st_links s') =
        fold_right (fun k' acc => lk_uses k' + acc) 0 (st_links s) + 1
  end.
Proof.
  intros p s s'. subst s s'.
  unfold db_increment_link_uses, bind, get_store, put_store. cbn [fst snd w_store set_store].
  destruct (List.find p (st_links (w_store w))) as [k|] eqn:Hf.
  - destruct (update_one_link_found p _ k Hf) as (H1 & H2 & H3); [reflexivity|].
    cbn [st_channels st_users st_links]. repeat split; assumption.
  - fold p. rewrite update_one_link_absent by exact Hf. destruct (w_store w); reflexivity.
Qed.

(** ** Statistics *)

Lemma sum_total_joins_fold (l : list channel) :
  sum_total_joins l = fold_right (fun c acc => ch_total_joins c + acc) 0 l.
Proof. destruct l; reflexivity. Qed.

Lemma sum_total_joins_inc (cid : Z) (l : list channel) (c : channel) :
  find_channel cid l = Some c ->
  sum_total_joins (update_one_channel cid inc_total_joins l) = sum_total_joins l + 1.
Proof.
  rewrite !sum_total_joins_fold. unfold find_channel.
  induction l as [|c0 l IH]; simpl; [discriminate|].
  destruct (channel_has_id cid c0).
  - intros _. simpl. lia.
  - intros Hf. simpl. rewrite (IH Hf). lia.
Qed.

Lemma active_count_inc (cid : Z) (l : list channel) :
  length (List.filter ch_is_active (update_one_channel cid inc_total_joins l)) =
  length (List.filter ch_is_active l).
Proof.
  induction l as [|c0 l IH]; simpl; [reflexivity|].
  destruct (channel_has_id cid c0); simpl;
    destruct (ch_is_active c0); simpl; rewrite ?IH; reflexivity.
Qed.

Lemma db_get_stats_result (w : world) :
  exists au al,
    fst (db_get_stats w) =
      inr (mkStats (Z.of_nat (length (st_users (w_store w)))) au
             (Z.of_nat (length (List.filter ch_is_active (st_channels (w_store w))))) al
             (sum_total_joins (st_channels (w_store w)))).
Proof.
  unfold db_get_stats, db_get_active_users, bind, utcnow, get_store, ret.
  cbn [fst snd w_store tick]. eexists _, _. reflexivity.
Qed.

Lemma callback_channel_store (cfg : config) (w : world) (cid uid : Z) (c : channel)
    (inv : string) :
  find_channel cid (st_channels (w_store w)) = Some c ->
  w_create_invite w cid MemberLimit1 = Some inv ->
  w_store (snd (callback_channel cfg cid uid w)) =
    mkStore (update_one_channel cid inc_total_joins (st_channels (w_store w)))
      (st_users (w_store w))
      (st_links (w_store w) ++
         [saved_link cfg cid inv "invite" (w_time w (w_tick w)) (w_time w (S (w_tick w)))]).
Proof.
  intros Hf Hc.
  unfold callback_channel, generate_invite_link, db_get_channel, try_except, bind,
    get_store, ret, emit, client_create_invite.
  cbn [fst snd w_store add_event]. rewrite Hf. cbn. rewrite Hc. cbn. reflexivity.
Qed.

(** A successful issuance from the channel button raises the
    [total_joins] figure of [get_stats] by exactly one, and leaves its
    [total_users] and [total_channels] figures as they were. *)
Theorem issuance_raises_stats_total_joins (cfg : config) (w : world) (cid uid : Z)
    (c : channel) (inv : string) :
  find_channel cid (st_channels (w_store w)) = Some c ->
  w_create_invite w cid MemberLimit1 = Some inv ->
  exists before after,
    fst (db_get_stats w) = inr before /\
    fst (db_get_stats (snd (callback_channel cfg cid uid w))) = inr after /\
    stat_total_joins after = stat_total_joins before + 1 /\
    stat_total_users after = stat_total_users before /\
    stat_total_channels after = stat_total_channels before.
Proof.
  intros Hf Hc.
  destruct (db_get_stats_result w) as (au & al & E1).
  destruct (db_get_stats_result (snd (callback_channel cfg cid uid w))) as (au' & al' & E2).
  rewrite (callback_channel_store cfg w cid uid c inv Hf Hc) in E2.
  cbn [st_channels st_users st_links] in E2.
  eexists _, _. split; [exact E1|]. split; [exact E2|]. cbn.
  rewrite (sum_total_joins_inc cid _ c Hf), active_count_inc. repeat split.
Qed.

Lemma issuance_raises_stats_total_joins_witness :
  find_channel (-1001234567890) (st_channels (w_store (world_ok store_sample))) =
    Some chan_news /\
  w_create_invite (world_ok store_sample) (-1001234567890) MemberLimit1 =
    Some "https://t.me/+new" /\
  exists before after,
    fst (db_get_stats (world_ok store_sample)) = inr before /\
    fst (db_get_stats (snd (callback_channel cfg_default (-1001234567890) 42
                              (world_ok store_sample)))) = inr after /\
    stat_total_joins after = stat_total_joins before + 1.
Proof.
  split; [reflexivity|]. split; [reflexivity|].
  destruct (issuance_raises_stats_total_joins cfg_default (world_ok store_sample)
              (-1001234567890) 42 chan_news "https://t.me/+new" eq_refl eq_refl)
    as (b & a & H1 & H2 & H3 & _).
  exists b, a. auto.
Defined.

(** ** Python strings and integers *)

Lemma uint_to_string_head (u : Decimal.uint) :
  u <> Decimal.Nil ->
  exists c r d, uint_to_string u = String c r /\ uint_digit c = Some d /\
    py_isspace c = false /\ Ascii.eqb c "_" = false /\ Ascii.eqb c "-" = false /\
    Ascii.eqb c "+" = false.
Proof.
  destruct u; intros H; [congruence| ..].
  all: eexists _, _, _; split; [reflexivity|]; repeat split; reflexivity.
Qed.

Lemma parse_uint_cons (c c2 : ascii) (r : string) (d : Decimal.uint -> Decimal.uint) :
  uint_digit c = Some d -> Ascii.eqb c2 "_" = false ->
  parse_uint (String c (String c2 r)) = option_map d (parse_uint (String c2 r)).
Proof.
  intros Hd Hc. remember (String c2 r) as s eqn:Es.
  simpl. rewrite Hd. subst s. rewrite Hc. reflexivity.
Qed.

Lemma parse_uint_uint_to_string (u : Decimal.uint) :
  u <> Decimal.Nil -> parse_uint (uint_to_string u) = Some u.
Proof.
  induction u as [|v IH|v IH|v IH|v IH|v IH|v IH|v IH|v IH|v IH|v IH]; intros H;
    [congruence|..].
  all: destruct v eqn:Ev; [reflexivity|..]; rewrite <- Ev in *.
  all: destruct (uint_to_string_head v ltac:(subst v; discriminate))
         as (c & r & d & Hs & Hd & _ & Hu & _).
  all: cbn [uint_to_string]; rewrite Hs; rewrite Hs in IH.
  all: erewrite parse_uint_cons by first [reflexivity|exact Hu].
  all: rewrite IH by (subst v; discriminate); reflexivity.
Qed.

Lemma py_rstrip_cons (c : ascii) (r : string) :
  py_isspace c = false -> py_rstrip r = r -> py_rstrip (String c r) = String c r.
Proof. intros Hc Hr. simpl. rewrite Hr. destruct r; [rewrite Hc|]; reflexivity. Qed.

Lemma py_rstrip_uint (u : Decimal.uint) : py_rstrip (uint_to_string u) = uint_to_string u.
Proof.
  induction u; [reflexivity|..]; cbn [uint_to_string]; apply py_rstrip_cons; auto.
Qed.

Lemma py_split_uint (u : Decimal.uint) :
  py_split_char "_" (uint_to_string u) = [uint_to_string u].
Proof. induction u; [reflexivity|..]; simpl; rewrite IHu; reflexivity. Qed.

Lemma py_str_int_cases (n : Z) :
  exists u, u <> Decimal.Nil /\
    ((py_str_int n = uint_to_string u /\ Z.of_uint u = n) \/
     (py_str_int n = String "-" (uint_to_string u) /\ - Z.of_uint u = n)).
Proof.
  pose proof (DecimalZ.of_to n) as Hn. unfold py_str_int.
  destruct (Z.to_int n) as [u|u] eqn:E; exists u;
    (split; [intros ->; cbn in Hn; subst n; discriminate E|]).
  - left. split; [reflexivity|exact Hn].
  - right. split; [reflexivity|exact Hn].
Qed.

Lemma py_str_int_head (n : Z) :
  exists c r, py_str_int n = String c r /\ py_isspace c = false /\ Ascii.eqb c "_" = false.
Proof.
  destruct (py_str_int_cases n) as (u & Hu & [[-> _]|[-> _]]).
  - destruct (uint_to_string_head u Hu) as (c & r & d & -> & _ & Hs & H_ & _).
    exists c, r. auto.
  - exists "-"%char, (uint_to_string u). auto.
Qed.

Lemma py_strip_str_int (n : Z) : py_strip (py_str_int n) = py_str_int n.
Proof.
  unfold py_strip. destruct (py_str_int_head n) as (c & r & Hs & Hc & _).
  rewrite Hs. simpl py_lstrip. rewrite Hc. rewrite <- Hs.
  destruct (py_str_int_cases n) as (u & Hu & [[-> _]|[-> _]]).
  - apply py_rstrip_uint.
  - apply py_rstrip_cons; [reflexivity|apply py_rstrip_uint].
Qed.

Lemma py_split_str_int (n : Z) : py_split_char "_" (py_str_int n) = [py_str_int n].
Proof.
  destruct (py_str_int_cases n) as (u & Hu & [[-> _]|[-> _]]).
  - apply py_split_uint.
  - simpl. rewrite py_split_uint. reflexivity.
Qed.

Lemma py_int_str_int (n : Z) : py_int (py_str_int n) = Some n.
Proof.
  unfold py_int. rewrite py_strip_str_int.
  destruct (py_str_int_cases n) as (u & Hu & [[-> Hn]|[-> Hn]]).
  - destruct (uint_to_string_head u Hu) as (c & r & d & Hs & _ & _ & _ & Hm & Hp).
    rewrite Hs, Hm, Hp. rewrite <- Hs, parse_uint_uint_to_string by exact Hu.
    cbn. rewrite Hn. reflexivity.
  - cbn [Ascii.eqb Bool.eqb]. rewrite parse_uint_uint_to_string by exact Hu.
    cbn. rewrite Hn. reflexivity.
Qed.

Lemma callback_route_channel (n : Z) :
  callback_route ("channel_" ++ py_str_int n) = RouteChannel (Some n).
Proof.
  unfold callback_route, int_of_second_piece, String.append. cbn -[py_str_int py_int].
  rewrite py_split_str_int. cbn -[py_str_int py_int]. rewrite py_int_str_int.
  destruct (py_str_int n); reflexivity.
Qed.

Lemma callback_route_page (n : Z) :
  callback_route ("page_" ++ py_str_int n) = RoutePage (Some n).
Proof.
  unfold callback_route, int_of_second_piece, String.append. cbn -[py_str_int py_int].
  rewrite py_split_str_int. cbn -[py_str_int py_int]. rewrite py_int_str_int.
  destruct (py_str_int n); reflexivity.
Qed.

(** ** Keyboards *)

Lemma rows_of_two_props {A} (l : list A) :
  concat (rows_of_two l) = l /\
  Forall (fun row => (1 <= length row <= 2)%nat) (rows_of_two l).
Proof.
  remember (length l) as n eqn:En. assert (Hn : (length l <= n)%nat) by lia. clear En.
  revert l Hn. induction n as [|n IH]; intros l Hn.
  - destruct l; [split; [reflexivity|constructor]|simpl in Hn; lia].
  - destruct l as [|x [|y r]].
    + split; [reflexivity|constructor].
    + split; [reflexivity|]. constructor; [simpl; lia|constructor].
    + simpl in Hn. destruct (IH r ltac:(lia)) as [H1 H2].
      simpl. rewrite H1. split; [reflexivity|]. constructor; [simpl; lia|exact H2].
Qed.

Lemma py_slice_page {A} (l : list A) (k : nat) :
  py_slice l (Z.of_nat k * 8) (Z.of_nat k * 8 + 8) = firstn 8 (skipn (k * 8) l).
Proof.
  unfold py_slice, py_slice_index.
  rewrite (proj2 (Z.ltb_ge (Z.of_nat k * 8) 0)) by lia.
  rewrite (proj2 (Z.ltb_ge (Z.of_nat k * 8 + 8) 0)) by lia.
  assert (Ek : Z.to_nat (Z.of_nat k * 8) = (k * 8)%nat) by lia.
  destruct (Z.ltb_spec (Z.min (Z.of_nat k * 8) (Z.of_nat (length l)))
                       (Z.min (Z.of_nat k * 8 + 8) (Z.of_nat (length l)))) as [Hlt|Hge].
  - assert (Hk : Z.of_nat k * 8 < Z.of_nat (length l)) by lia.
    rewrite (Z.min_l (Z.of_nat k * 8)) by lia. rewrite Ek.
    destruct (Z.le_ge_cases (Z.of_nat k * 8 + 8) (Z.of_nat (length l))) as [Hle|Hgt].
    + rewrite Z.min_l by exact Hle. f_equal. lia.
    + rewrite Z.min_r by lia.
      rewrite firstn_all2 by (rewrite length_skipn; lia).
      rewrite firstn_all2 by (rewrite length_skipn; lia). reflexivity.
  - rewrite skipn_all2 by lia. reflexivity.
Qed.

Lemma pages_concat {A} (l : list A) (k s : nat) :
  (length l <= (s + k) * 8)%nat ->
  concat (map (fun p => firstn 8 (skipn (p * 8) l)) (seq s k)) = skipn (s * 8) l.
Proof.
  revert s. induction k as [|k IH]; intros s Hl.
  - simpl. rewrite skipn_all2 by lia. reflexivity.
  - simpl. rewrite IH by lia.
    replace (S s * 8)%nat with (8 + s * 8)%nat by lia.
    rewrite <- skipn_skipn. apply firstn_skipn.
Qed.

Lemma channel_list_keyboard_shape (l : list channel) (p : Z) :
  exists nav,
    channel_list_keyboard l p =
      map (map channel_button) (rows_of_two (py_slice l (p * 8) (p * 8 + 8))) ++
      [nav; [mkButton "« Back to Menu" "start"]] /\
    map (fun b => callback_route (btn_callback_data b)) nav =
      (if Z.ltb 0 p then [RoutePage (Some (p - 1))] else []) ++ [RouteNoop] ++
      (if Z.ltb p (total_pages (length l) - 1) then [RoutePage (Some (p + 1))] else []).
Proof.
  unfold channel_list_keyboard, MAX_CHANNELS_PER_PAGE.
  destruct (Z.ltb 0 p), (Z.ltb p (total_pages (length l) - 1));
    (eexists; split; [reflexivity|]);
    cbn [map app btn_callback_data];
    rewrite ?callback_route_page; reflexivity.
Qed.

Lemma channel_list_keyboard_routes (l : list channel) (p : Z) :
  map (fun b => callback_route (btn_callback_data b)) (concat (channel_list_keyboard l p)) =
    map (fun c => RouteChannel (Some (ch_channel_id c))) (py_slice l (p * 8) (p * 8 + 8)) ++
    (if Z.ltb 0 p then [RoutePage (Some (p - 1))] else []) ++ [RouteNoop] ++
    (if Z.ltb p (total_pages (length l) - 1) then [RoutePage (Some (p + 1))] else []) ++
    [RouteStart].
Proof.
  destruct (channel_list_keyboard_shape l p) as (nav & -> & Hnav).
  rewrite concat_app, map_app, <- concat_map, (proj1 (rows_of_two_props _)), map_map.
  cbn [concat app]. rewrite map_app, Hnav. cbn [map].
  rewrite <- !app_assoc. f_equal.
  - apply map_ext. intros c. apply callback_route_channel.
Qed.

Lemma removelast_two {A} (r : list A) (a b : A) : removelast (removelast (r ++ [a; b])) = r.
Proof.
  replace (r ++ [a; b]) with ((r ++ [a]) ++ [b]) by (rewrite <- app_assoc; reflexivity).
  rewrite !removelast_last. reflexivity.
Qed.

Lemma total_pages_bound (n : nat) : (n <= Z.to_nat (total_pages n) * 8)%nat.
Proof.
  unfold total_pages, MAX_CHANNELS_PER_PAGE.
  pose proof (Z.div_mod (Z.of_nat n - 1) 8 ltac:(lia)).
  pose proof (Z.mod_pos_bound (Z.of_nat n - 1) 8 ltac:(lia)). lia.
Qed.

Lemma total_pages_next (n : nat) (p : Z) :
  0 <= p -> (p < total_pages n - 1 <-> (p + 1) * 8 < Z.of_nat n).
Proof.
  intros Hp. unfold total_pages, MAX_CHANNELS_PER_PAGE.
  pose proof (Z.div_mod (Z.of_nat n - 1) 8 ltac:(lia)).
  pose proof (Z.mod_pos_bound (Z.of_nat n - 1) 8 ltac:(lia)). lia.
Qed.

(** [channel_list_keyboard] splits the channel list into pages: paging
    from page 0 to the last page ([total_pages]) shows every channel
    exactly once, in list order, each as a button for that channel; and on
    every page the channel buttons come in rows of one or two. *)
Theorem channel_pages_partition (l : list channel) :
  concat (map (fun p => concat (removelast (removelast (channel_list_keyboard l (Z.of_nat p)))))
             (seq 0 (Z.to_nat (total_pages (length l))))) = map channel_button l /\
  forall p, Forall (fun row => (1 <= length row <= 2)%nat)
              (removelast (removelast (channel_list_keyboard l p))).
Proof.
  split.
  - erewrite map_ext.
    2: { intros p. destruct (channel_list_keyboard_shape l (Z.of_nat p)) as (nav & -> & _).
         rewrite removelast_two, <- concat_map, (proj1 (rows_of_two_props _)).
         rewrite py_slice_page. reflexivity. }
    rewrite <- map_map, <- concat_map, pages_concat; [reflexivity|].
    apply total_pages_bound.
  - intros p. destruct (channel_list_keyboard_shape l p) as (nav & -> & _).
    rewrite removelast_two. apply Forall_map.
    eapply List.Forall_impl; [|exact (proj2 (rows_of_two_props _))].
    intros row Hr. rewrite length_map. exact Hr.
Qed.

Lemma In_page_route (l : list channel) (p q : Z) :
  (exists b, In b (concat (channel_list_keyboard l p)) /\
             callback_route (btn_callback_data b) = RoutePage (Some q)) <->
  (0 < p /\ q = p - 1) \/ (p < total_pages (length l) - 1 /\ q = p + 1).
Proof.
  assert (E : (exists b, In b (concat (channel_list_keyboard l p)) /\
             callback_route (btn_callback_data b) = RoutePage (Some q)) <->
              In (RoutePage (Some q))
                 (map (fun b => callback_route (btn_callback_data b))
                    (concat (channel_list_keyboard l p)))).
  { rewrite in_map_iff. split; intros (b & H1 & H2); exists b; auto. }
  rewrite E, channel_list_keyboard_routes. clear E.
  rewrite !in_app_iff, in_map_iff.
  destruct (Z.ltb_spec 0 p), (Z.ltb_spec p (total_pages (length l) - 1)); simpl;
    split; intros Hx;
    repeat match goal with
           | H : _ \/ _ |- _ => destruct H
           | H : exists _, _ |- _ => destruct H
           | H : _ /\ _ |- _ => destruct H
           | H : False |- _ => destruct H
           | H : RouteChannel _ = _ |- _ => discriminate H
           | H : RouteNoop = _ |- _ => discriminate H
           | H : RouteStart = _ |- _ => discriminate H
           | H : RoutePage _ = RoutePage _ |- _ => injection H as <-
           end;
    subst; try lia; tauto.
Qed.

(** The navigation row of [channel_list_keyboard] on a page [p >= 0]: a
    button leading to page [p + 1] is shown exactly when some channel lies
    beyond page [p], and a button leading to page [p - 1] exactly when
    [p > 0]. *)
Theorem channel_list_navigation (l : list channel) (p : Z) :
  0 <= p ->
  ((exists b, In b (concat (channel_list_keyboard l p)) /\
              callback_route (btn_callback_data b) = RoutePage (Some (p + 1))) <->
   (p + 1) * 8 < Z.of_nat (length l)) /\
  ((exists b, In b (concat (channel_list_keyboard l p)) /\
              callback_route (btn_callback_data b) = RoutePage (Some (p - 1))) <->
   0 < p).
Proof.
  intros Hp. rewrite !In_page_route, <- (total_pages_next (length l) p Hp). lia.
Qed.

Lemma channel_list_navigation_witness :
  0 <= 0 /\
  ((exists b, In b (concat (channel_list_keyboard [chan_news; chan_off] 0)) /\
              callback_route (btn_callback_data b) = RoutePage (Some (0 + 1))) <->
   (0 + 1) * 8 < Z.of_nat (length [chan_news; chan_off])).
Proof.
  assert (H0 : 0 <= 0) by lia. split; [exact H0|].
  exact (proj1 (channel_list_navigation [chan_news; chan_off] 0 H0)).
Defined.

(** Every button of [channel_list_keyboard] is handled by [callback_handler]
    as intended: in keyboard order, the button of each listed channel
    reaches the "channel_" branch with that channel's own id (negative ids
    included), "Previous" reaches the "page_" branch with [p - 1], the page
    label reaches "noop", "Next" reaches "page_" with [p + 1], and "Back"
    reaches "start"; no button falls through to "Feature coming soon" or
    makes [int()] raise. *)
Theorem channel_list_keyboard_dispatch (l : list channel) (p : Z) :
  map (fun b => callback_route (btn_callback_data b)) (concat (channel_list_keyboard l p)) =
    map (fun c => RouteChannel (Some (ch_channel_id c))) (py_slice l (p * 8) (p * 8 + 8)) ++
    (if Z.ltb 0 p then [RoutePage (Some (p - 1))] else []) ++ [RouteNoop] ++
    (if Z.ltb p (total_pages (length l) - 1) then [RoutePage (Some (p + 1))] else []) ++
    [RouteStart].
Proof. apply channel_list_keyboard_routes. Qed.

Lemma py_len_take (n : nat) (s : string) : py_len (py_take n s) = Nat.min n (py_len s).
Proof.
  revert n. induction s as [|c r IH]; intros n; simpl; [lia|].
  destruct (utf8_cont c) eqn:Hc; simpl; rewrite ?Hc.
  - apply IH.
  - destruct n; simpl; rewrite ?Hc; [reflexivity|]. rewrite IH. reflexivity.
Qed.

Lemma py_len_app (s t : string) : py_len (s ++ t) = (py_len s + py_len t)%nat.
Proof. induction s as [|c r IH]; simpl; [reflexivity|]. rewrite IH. lia. Qed.

(** The name on a channel button: a name of at most 20 characters is shown
    whole; a longer one is cut to its first 20 characters followed by
    "...", so the shown name never exceeds 23 characters. *)
Theorem display_name_length (name : string) :
  (py_len name <= 20 -> display_name name = name)%nat /\
  (20 < py_len name ->
     display_name name = (py_take 20 name ++ "...")%string /\
     py_len (display_name name) = 23)%nat.
Proof.
  unfold display_name. split.
  - intros H. destruct (Nat.ltb_spec 20 (py_len name)); [lia|reflexivity].
  - intros H. destruct (Nat.ltb_spec 20 (py_len name)); [|lia]. split; [reflexivity|].
    rewrite py_len_app, py_len_take. replace (py_len "...") with 3%nat by reflexivity. lia.
Qed.

Lemma display_name_length_witness :
  (20 < py_len "Announcements of the LinkVault project")%nat /\
  py_len (display_name "Announcements of the LinkVault project") = 23%nat.
Proof.
  assert (H : (20 < py_len "Announcements of the LinkVault project")%nat) by (vm_compute; lia).
  split; [exact H|].
  exact (proj2 (proj2 (display_name_length "Announcements of the LinkVault project") H)).
Defined.

(** Where the buttons of the fixed menus lead in [callback_handler]: of the
    admin panel only "Bot Stats" and "Back" reach a handler; for every
    channel id, the four action buttons of [channel_action_menu] and the
    "Yes, Delete" button of [confirm_delete] all end on "Feature coming
    soon", and "Cancel" of [confirm_delete] reaches the "channel_" branch,
    which issues an invite link for that channel. *)
Theorem menu_buttons_dispatch (channel_id : Z) :
  map (map (fun b => callback_route (btn_callback_data b))) admin_panel =
    [[RouteComingSoon]; [RouteAdminStats; RouteComingSoon];
     [RouteComingSoon; RouteComingSoon]; [RouteStart]] /\
  map (map (fun b => callback_route (btn_callback_data b))) (channel_action_menu channel_id) =
    [[RouteComingSoon]; [RouteComingSoon]; [RouteComingSoon; RouteComingSoon];
     [RouteGetLinks]] /\
  map (map (fun b => callback_route (btn_callback_data b))) (confirm_delete channel_id) =
    [[RouteComingSoon; RouteChannel (Some channel_id)]].
Proof.
  split; [reflexivity|]. split.
  - unfold channel_action_menu, callback_route, String.append.
    cbn -[py_str_int int_of_second_piece]. reflexivity.
  - unfold confirm_delete. cbn [map btn_callback_data]. rewrite callback_route_channel.
    unfold callback_route, String.append. cbn -[py_str_int int_of_second_piece].
    reflexivity.
Qed.

(** ** Time formatting *)

Lemma readable_step (name : string) (c s : Z) (r : list (string * Z)) (acc : list string) :
  0 < c ->
  readable_parts ((name, c) :: r) s acc =
    readable_parts r (s mod c)
      (if Z.eqb (s / c) 0 then acc else acc ++ [(py_str_int (s / c) ++ " " ++ name)%string]).
Proof.
  intros Hc. cbn [readable_parts]. destruct (Z.eqb_spec (s / c) 0) as [H0|H0].
  - f_equal. pose proof (Z.div_mod s c ltac:(lia)). lia.
  - f_equal. pose proof (Z.div_mod s c ltac:(lia)). lia.
Qed.

(** [get_readable_time] lists, in this order, the nonzero values among the
    days [s // 86400], the hours [s % 86400 // 3600], the minutes
    [s % 3600 // 60] and the seconds [s % 60] (floor division, so a
    negative duration shows negative days), and keeps the first two; the
    list is empty, and the text "0 seconds", exactly when [s = 0]. *)
Theorem readable_time_components (s : Z) :
  readable_parts readable_intervals s [] =
    map (fun '(v, name) => (py_str_int v ++ " " ++ name)%string)
      (List.filter (fun '(v, _) => negb (Z.eqb v 0))
         [(s / 86400, "days"); (s mod 86400 / 3600, "hours");
          (s mod 3600 / 60, "minutes"); (s mod 60, "seconds")]%string) /\
  get_readable_time s =
    match readable_parts readable_intervals s [] with
    | [] => "0 seconds"%string
    | result => String.concat ", " (firstn 2 result)
    end /\
  (readable_parts readable_intervals s [] = [] <-> s = 0).
Proof.
  assert (E : readable_parts readable_intervals s [] =
    map (fun '(v, name) => (py_str_int v ++ " " ++ name)%string)
      (List.filter (fun '(v, _) => negb (Z.eqb v 0))
         [(s / 86400, "days"); (s mod 86400 / 3600, "hours");
          (s mod 3600 / 60, "minutes"); (s mod 60, "seconds")]%string)).
  { unfold readable_intervals.
    rewrite readable_step by lia. rewrite readable_step by lia.
    rewrite Z.mod_mod_divide by (exists 24; reflexivity).
    rewrite readable_step by lia.
    rewrite Z.mod_mod_divide by (exists 60; reflexivity).
    rewrite readable_step by lia. rewrite Z.div_1_r. cbn [readable_parts List.filter map].
    destruct (Z.eqb (s / 86400) 0), (Z.eqb (s mod 86400 / 3600) 0),
      (Z.eqb (s mod 3600 / 60) 0), (Z.eqb (s mod 60) 0); reflexivity. }
  split; [exact E|]. split; [reflexivity|].
  rewrite E. split.
  - intros H. cbn [List.filter map] in H.
    destruct (Z.eqb_spec (s / 86400) 0), (Z.eqb_spec (s mod 86400 / 3600) 0),
      (Z.eqb_spec (s mod 3600 / 60) 0), (Z.eqb_spec (s mod 60) 0);
      cbn [negb map] in H; try discriminate H.
    pose proof (Z.div_mod s 86400 ltac:(lia)).
    pose proof (Z.div_mod (s mod 86400) 3600 ltac:(lia)).
    rewrite Z.mod_mod_divide in * by (exists 24; reflexivity).
    pose proof (Z.div_mod (s mod 3600) 60 ltac:(lia)).
    rewrite Z.mod_mod_divide in * by (exists 60; reflexivity).
    lia.
  - intros ->. reflexivity.
Qed.

(** [format_time_ago] on a date in the future: when [dt] lies after the
    clock read by at most 82799 seconds, Python's [timedelta] normalises
    the negative difference to [days = -1] and a large [seconds], and the
    text is "k hour(s) ago" for some [k] from 1 to 23. *)
Theorem format_time_ago_future (w : world) (dt : Z) :
  w_time w (w_tick w) < dt <= w_time w (w_tick w) + 82799 * 1000000 ->
  exists k, 1 <= k <= 23 /\
    fst (format_time_ago dt w) = inr (py_str_int k ++ " hour(s) ago")%string.
Proof.
  intros Hdt. unfold format_time_ago, bind, utcnow, ret. cbn [fst snd].
  set (d := w_time w (w_tick w) - dt).
  assert (Hdiv : d / (86400 * 1000000) = -1).
  { symmetry. apply Z.div_unique with (d + 86400 * 1000000); lia. }
  assert (Hmod : d mod (86400 * 1000000) = d + 86400 * 1000000).
  { symmetry. apply Z.mod_unique with (-1); lia. }
  rewrite Hdiv, Hmod.
  set (sec := (d + 86400 * 1000000) / 1000000).
  assert (Hs1 : 3601 <= sec) by (apply Z.div_le_lower_bound; lia).
  assert (Hs2 : sec < 86400) by (apply Z.div_lt_upper_bound; lia).
  exists (sec / 3600). split.
  - split; [apply Z.div_le_lower_bound; lia|].
    assert (sec / 3600 < 24) by (apply Z.div_lt_upper_bound; lia). lia.
  - cbn [Z.ltb Z.compare]. rewrite (proj2 (Z.ltb_lt 3600 sec)) by lia. reflexivity.
Qed.

Lemma format_time_ago_future_witness :
  w_time (world_ok store_sample) (w_tick (world_ok store_sample)) < clock_us 0 + 1000000 <=
    w_time (world_ok store_sample) (w_tick (world_ok store_sample)) + 82799 * 1000000 /\
  exists k, 1 <= k <= 23 /\
    fst (format_time_ago (clock_us 0 + 1000000) (world_ok store_sample)) =
      inr (py_str_int k ++ " hour(s) ago")%string.
Proof.
  assert (H : w_time (world_ok store_sample) (w_tick (world_ok store_sample)) <
                clock_us 0 + 1000000 <=
              w_time (world_ok store_sample) (w_tick (world_ok store_sample)) +
                82799 * 1000000) by (cbn; unfold clock_us; lia).
  split; [exact H|].
  exact (format_time_ago_future (world_ok store_sample) _ H).
Defined.

(** ** Admin commands *)

Lemma py_split_max1_removechannel (n : Z) :
  py_split_max1 ("/removechannel " ++ py_str_int n)%string =
    ["/removechannel"; py_str_int n]%string.
Proof.
  destruct (py_str_int_head n) as (c & r & Hs & Hc & _). rewrite Hs.
  unfold py_split_max1. cbv. cbv in Hc. rewrite Hc. reflexivity.
Qed.

(** [remove_channel_command] answers a non-admin with "Access denied."
    and touches nothing; for an admin, [/removechannel <id>] with the id
    written as Python prints it runs [db.remove_channel(id)] on the same
    world and reports its outcome: removed when it returned [True], not
    found otherwise. *)
Theorem remove_channel_command_effect (cfg : config) (uid cid : Z) (w : world) :
  (is_admin cfg uid = false ->
   forall text, remove_channel_command cfg uid text w = (inr RemoveAccessDenied, w)) /\
  (is_admin cfg uid = true ->
   remove_channel_command cfg uid ("/removechannel " ++ py_str_int cid)%string w =
     (match fst (db_remove_channel cid w) with
      | inr true => inr (RemoveDone cid)
      | inr false => inr RemoveNotFound
      | inl e => inl e
      end, snd (db_remove_channel cid w))).
Proof.
  split.
  - intros Ha text. unfold remove_channel_command. rewrite Ha. reflexivity.
  - intros Ha. unfold remove_channel_command. rewrite Ha, py_split_max1_removechannel.
    cbv iota beta. rewrite py_strip_str_int, py_int_str_int.
    unfold bind. cbn [negb]. cbv beta. destruct (db_remove_channel cid w) as [[e|[|]] w']; reflexivity.
Qed.

(** The broadcast loop counts every user document as sent or failed,
    and raises [KeyError] as soon as one has no [user_id]. *)
Lemma broadcast_loop_counts (copy_ok : value -> bool) users s f :
  (Forall (fun u => is_Some (u !! "user_id"%string)) users ->
   broadcast_loop copy_ok users s f =
     inr (s + Z.of_nat (length (List.filter (fun u =>
            match u !! "user_id"%string with Some v => copy_ok v | None => false end) users)),
          f + Z.of_nat (length (List.filter (fun u =>
            match u !! "user_id"%string with Some v => negb (copy_ok v) | None => false end) users)))) /\
  (Exists (fun u => u !! "user_id"%string = None) users ->
   broadcast_loop copy_ok users s f = inl (PyError "KeyError: 'user_id'")).
Proof.
  revert s f. induction users as [|u r IH]; intros s f; split.
  - intros _. cbn. f_equal. f_equal; lia.
  - intros H. inversion H.
  - intros H. inversion H as [|? ? [v Hv] Hr]; subst. cbn. rewrite Hv.
    destruct (copy_ok v) eqn:Hc; cbn;
      rewrite (proj1 (IH _ _) Hr); cbn [length]; f_equal; f_equal; lia.
  - intros H. cbn. destruct (u !! "user_id"%string) as [v|] eqn:Hv; [|reflexivity].
    inversion H as [? ? Hn|? ? Hr]; subst; [congruence|].
    destruct (copy_ok v); apply (proj2 (IH _ _)); exact Hr.
Qed.

(** [broadcast_command] run by an admin in reply to a message leaves the
    store unchanged; when every user document has a [user_id] it ends
    with [Sent]/[Failed] counts that add up to the number of users, the
    sent ones being those whose copy succeeded; when some document lacks
    [user_id] the handler raises [KeyError] instead of reporting. *)
Theorem broadcast_command_counts (cfg : config) (uid : Z) (copy_ok : value -> bool)
    (w : world) :
  is_admin cfg uid = true ->
  snd (broadcast_command cfg uid true copy_ok w) = w /\
  (Forall (fun u => is_Some (u !! "user_id"%string)) (st_users (w_store w)) ->
   exists sent failed,
     fst (broadcast_command cfg uid true copy_ok w) = inr (BroadcastDone sent failed) /\
     sent + failed = Z.of_nat (length (st_users (w_store w))) /\
     sent = Z.of_nat (length (List.filter (fun u =>
              match u !! "user_id"%string with Some v => copy_ok v | None => false end)
              (st_users (w_store w))))) /\
  (Exists (fun u => u !! "user_id"%string = None) (st_users (w_store w)) ->
   fst (broadcast_command cfg uid true copy_ok w) = inl (PyError "KeyError: 'user_id'")).
Proof.
  intros Ha. unfold broadcast_command. rewrite Ha. cbn [negb].
  unfold bind, get_store. cbn [fst snd].
  pose proof (broadcast_loop_counts copy_ok (st_users (w_store w)) 0 0) as [Hall Hex].
  split; [|split].
  - destruct (broadcast_loop copy_ok (st_users (w_store w)) 0 0) as [e|[a b]]; reflexivity.
  - intros Hf. rewrite (Hall Hf). cbn.
    eexists _, _. split; [reflexivity|]. split; [|lia].
    clear Hall Hex. induction (st_users (w_store w)) as [|u r IH]; [reflexivity|].
    inversion Hf as [|? ? [v Hv] Hr]; subst. cbn. rewrite Hv.
    specialize (IH Hr). destruct (copy_ok v); cbn [length negb]; lia.
  - intros He. rewrite (Hex He). reflexivity.
Qed.

Lemma broadcast_command_counts_witness :
  is_admin cfg_default 1 = true /\
  exists sent failed,
    fst (broadcast_command cfg_default 1 true (fun v => match v with VInt n => Z.eqb n 5 | _ => false end)
           (world_ok (mkStore [] [{[ "user_id"%string := VInt 5 ]};
                                  {[ "user_id"%string := VInt 6 ]}] []))) =
      inr (BroadcastDone sent failed) /\
    sent + failed = 2 /\ sent = 1.
Proof.
  split; [reflexivity|].
  destruct (broadcast_command_counts cfg_default 1 (fun v => match v with VInt n => Z.eqb n 5 | _ => false end)
              (world_ok (mkStore [] [{[ "user_id"%string := VInt 5 ]};
                                     {[ "user_id"%string := VInt 6 ]}] []))
              eq_refl) as (_ & Hall & _).
  destruct Hall as (sent & failed & E & Hsum & Hsent).
  - repeat constructor; eexists; reflexivity.
  - exists sent, failed. split; [exact E|]. split; [exact Hsum|]. rewrite Hsent. reflexivity.
Defined.
